(** * License compliance checker: a shallow embedding of [main.py]

    The checker runs [pip freeze], parses its [name==version] lines into a
    mapping, runs [pip show] once per package to find the [License] and
    [Home-page] fields, and renders the mapping as text or JSON.

    Modelling choices.
    - A Python [str] is a [string]; a character is a code point below 256
      (the Latin-1 range), which covers every character the parsers test.
    - A Python [dict] is an association list in insertion order with
      in-place update: iteration order and JSON field order depend on it.
    - [self.dependencies] is the state of a small state-and-exception monad;
      a raised exception keeps the mutations done before it, as in Python.
    - The two external commands are an oracle from the argument vector to
      what [subprocess.run] did. Logging is not modelled. *)

From Stdlib Require Import String Ascii List Bool Arith.
Import ListNotations.
Open Scope string_scope.

(** ** Python string primitives *)

Module Py.

Definition chr (n : nat) : string := String (ascii_of_nat n) EmptyString.

Definition LF : string := chr 10.
Definition CR : string := chr 13.
Definition DQ : string := chr 34.

(** [str.isspace] on one code point below 256. *)
Definition isspace (c : ascii) : bool :=
  let n := nat_of_ascii c in
  (((9 <=? n) && (n <=? 13)) || ((28 <=? n) && (n <=? 32))
   || (n =? 133) || (n =? 160))%nat.

(** The line boundaries of [str.splitlines] below 256. *)
Definition is_linebreak (c : ascii) : bool :=
  let n := nat_of_ascii c in
  (((10 <=? n) && (n <=? 13)) || ((28 <=? n) && (n <=? 30))
   || (n =? 133))%nat.

(** [str.lower] on one code point below 256. *)
Definition lower_char (c : ascii) : ascii :=
  let n := nat_of_ascii c in
  if (((65 <=? n) && (n <=? 90))
      || ((192 <=? n) && (n <=? 222) && negb (n =? 215)))%nat
  then ascii_of_nat (n + 32) else c.

Fixpoint lower (s : string) : string :=
  match s with
  | EmptyString => EmptyString
  | String c s' => String (lower_char c) (lower s')
  end.

Fixpoint lstrip (s : string) : string :=
  match s with
  | EmptyString => EmptyString
  | String c s' => if isspace c then lstrip s' else s
  end.

Fixpoint rstrip (s : string) : string :=
  match s with
  | EmptyString => EmptyString
  | String c s' =>
      match rstrip s' with
      | EmptyString => if isspace c then EmptyString else String c EmptyString
      | r => String c r
      end
  end.

Definition strip (s : string) : string := rstrip (lstrip s).

(** [s.startswith(p)] *)
Definition startswith (p s : string) : bool := String.prefix p s.

(** [sub in s] *)
Fixpoint contains (sub s : string) : bool :=
  String.prefix sub s ||
  match s with
  | EmptyString => false
  | String _ s' => contains sub s'
  end.

Definition cons_head (c : ascii) (l : list string) : list string :=
  match l with
  | [] => [String c EmptyString]
  | h :: t => String c h :: t
  end.

(** [str.splitlines()]: no empty last line, and CR LF is one boundary. *)
Fixpoint splitlines (s : string) : list string :=
  match s with
  | EmptyString => []
  | String c s' =>
      if is_linebreak c then
        match s' with
        | String c2 s'' =>
            if Ascii.eqb c "013" && Ascii.eqb c2 "010"
            then EmptyString :: splitlines s''
            else EmptyString :: splitlines s'
        | EmptyString => EmptyString :: splitlines s'
        end
      else cons_head c (splitlines s')
  end.

(** [s.split(sep, maxsplit)] for a non-empty [sep]; [maxsplit = None] is
    Python's default of no limit. [skip] counts the characters of a separator
    just matched that are still to be passed over. *)
Fixpoint split_go (sep : string) (skip : nat) (maxsplit : option nat)
    (s : string) : list string :=
  match s with
  | EmptyString => [EmptyString]
  | String c s' =>
      match skip with
      | S k => split_go sep k maxsplit s'
      | O =>
          let may := match maxsplit with Some O => false | _ => true end in
          if may && String.prefix sep s then
            EmptyString ::
              split_go sep (String.length sep - 1)
                (option_map Nat.pred maxsplit) s'
          else cons_head c (split_go sep 0 maxsplit s')
      end
  end.

Definition split (sep : string) (maxsplit : option nat) (s : string)
  : list string := split_go sep 0 maxsplit s.

End Py.

Import Py.

(** ** Python dictionaries: insertion-ordered, updated in place *)

Definition dict (V : Type) : Type := list (string * V).

Fixpoint dict_get {V : Type} (k : string) (d : dict V) : option V :=
  match d with
  | [] => None
  | (k', v) :: d' => if String.eqb k' k then Some v else dict_get k d'
  end.

(** [d[k] = v]: an existing key keeps its position, a new key goes last. *)
Fixpoint dict_set {V : Type} (k : string) (v : V) (d : dict V) : dict V :=
  match d with
  | [] => [(k, v)]
  | (k', v') :: d' =>
      if String.eqb k' k then (k, v) :: d' else (k', v') :: dict_set k v d'
  end.

Definition keys {V : Type} (d : dict V) : list string := map fst d.

(** [d.get(k, default)] *)
Definition dict_get_default {V : Type} (k : string) (default : V)
    (d : dict V) : V :=
  match dict_get k d with Some v => v | None => default end.

(** ** The state-and-exception monad of the checker *)

(** A dependency record, [{'version': ..., 'license': ..., 'homepage': ...}]. *)
Definition record : Type := dict string.

(** [self.dependencies] *)
Definition deps : Type := dict record.

Inductive exn : Type :=
| CalledProcessError
| OSError
| ValueError
| KeyError (k : string)
| IndexError
| SystemExit (code : nat).

(** What [except Exception] catches: everything but [SystemExit]. *)
Definition is_Exception (e : exn) : bool :=
  match e with SystemExit _ => false | _ => true end.

Inductive outcome (A : Type) : Type :=
| Ok (a : A)
| Raise (e : exn).
Arguments Ok {A} a.
Arguments Raise {A} e.

Definition M (A : Type) : Type := deps -> outcome A * deps.

Definition ret {A : Type} (a : A) : M A := fun st => (Ok a, st).

Definition raise {A : Type} (e : exn) : M A := fun st => (Raise e, st).

Definition bind {A B : Type} (c : M A) (k : A -> M B) : M B :=
  fun st =>
    match c st with
    | (Ok a, st') => k a st'
    | (Raise e, st') => (Raise e, st')
    end.

(** [try: c except ...: h e]; [h e = None] when no clause matches [e]. *)
Definition try_except {A : Type} (c : M A) (h : exn -> option (M A)) : M A :=
  fun st =>
    match c st with
    | (Ok a, st') => (Ok a, st')
    | (Raise e, st') =>
        match h e with
        | Some handler => handler st'
        | None => (Raise e, st')
        end
    end.

Declare Scope checker_scope.
Delimit Scope checker_scope with checker.
Notation "x <- c ;; k" := (bind c (fun x => k))
  (at level 61, c at next level, right associativity) : checker_scope.
Notation "c ;;; k" := (bind c (fun _ => k))
  (at level 61, right associativity) : checker_scope.
Open Scope checker_scope.

(** ** The external commands *)

(** What [subprocess.run(command, ..., check=True)] did: it completed with
    exit status 0 and this standard output, it completed with another exit
    status, or the process could not be run at all. *)
Inductive completed : Type :=
| Completed (stdout : string)
| NonZeroExit
| LaunchFailure.

Definition system : Type := list string -> completed.

(** ** class LicenseComplianceChecker *)

Section Checker.

Variable subprocess_run : system.

Definition _execute_command (command : list string) : M string :=
  match subprocess_run command with
  | Completed stdout => ret (strip stdout)
  | NonZeroExit => raise CalledProcessError
  | LaunchFailure => raise OSError
  end.

(** [self.dependencies[package_name] = {'version': package_version}] *)
Definition set_dependency (package_name package_version : string) : M unit :=
  fun st => (Ok tt, dict_set package_name [("version", package_version)] st).

(** [self.dependencies[package_name][key] = value] *)
Definition set_field (package_name key value : string) : M unit :=
  fun st =>
    match dict_get package_name st with
    | Some info => (Ok tt, dict_set package_name (dict_set key value info) st)
    | None => (Raise (KeyError package_name), st)
    end.

(** [package_name, package_version = parts] *)
Definition unpack2 (parts : list string) : M (string * string) :=
  match parts with
  | [a; b] => ret (a, b)
  | _ => raise ValueError
  end.

(** [parts[1]] *)
Definition index1 (parts : list string) : M string :=
  match parts with
  | _ :: b :: _ => ret b
  | _ => raise IndexError
  end.

(** The body of the [for line in output.splitlines()] loop of
    [_get_dependencies]. *)
Fixpoint parse_freeze (lines : list string) : M unit :=
  match lines with
  | [] => ret tt
  | line :: rest =>
      (if contains "==" line then
         nv <- unpack2 (split "==" None line) ;;
         set_dependency (fst nv) (snd nv)
       else ret tt) ;;;
      parse_freeze rest
  end.

Definition _get_dependencies : M unit :=
  try_except
    (output <- _execute_command ["pip"; "freeze"] ;;
     parse_freeze (splitlines output))
    (fun e =>
       match e with
       | CalledProcessError => Some (raise (SystemExit 1))
       | _ => None
       end).

(** The [for line in output.splitlines()] loop of [_get_license_info]; the
    value is [license_info] when the loop is left. *)
Fixpoint scan_show (package_name : string) (lines : list string) : M string :=
  match lines with
  | [] => ret "UNKNOWN"
  | line :: rest =>
      if startswith "license:" (lower line) then
        v <- index1 (split ":" (Some 1) line) ;;
        ret (strip v)
      else if startswith "home-page:" (lower line) then
        v <- index1 (split ":" (Some 1) line) ;;
        set_field package_name "homepage" (strip v) ;;;
        scan_show package_name rest
      else scan_show package_name rest
  end.

Definition _get_license_info (package_name : string) : M unit :=
  try_except
    (output <- _execute_command ["pip"; "show"; package_name] ;;
     license_info <- scan_show package_name (splitlines output) ;;
     set_field package_name "license" license_info)
    (fun e =>
       match e with
       | CalledProcessError =>
           Some (set_field package_name "license" "UNKNOWN")
       | _ =>
           if is_Exception e
           then Some (set_field package_name "license" "UNKNOWN")
           else None
       end).

(** [for package_name in self.dependencies: ...]; the loop only rebinds
    fields of existing records, so the keys met are those at loop entry. *)
Fixpoint for_each_package (names : list string) : M unit :=
  match names with
  | [] => ret tt
  | package_name :: rest =>
      _get_license_info package_name ;;; for_each_package rest
  end.

Definition scan_licenses : M unit :=
  _get_dependencies ;;;
  (fun st => for_each_package (keys st) st).

End Checker.

(** ** json.dumps(self.dependencies, indent=4) *)

#[warnings="-register-all"] Inductive json : Type :=
| JString (s : string)
| JObject (items : list (string * json)).

Definition hex_digit (n : nat) : string :=
  String.substring n 1 "0123456789abcdef".

(** One character under [ensure_ascii=True]: the short escapes, the printable
    ASCII characters as they are, anything else as a [\u00xx] escape. *)
Definition escape_char (c : ascii) : string :=
  let n := nat_of_ascii c in
  if (n =? 34)%nat then "\" ++ DQ
  else if (n =? 92)%nat then "\\"
  else if (n =? 10)%nat then "\n"
  else if (n =? 13)%nat then "\r"
  else if (n =? 9)%nat then "\t"
  else if (n =? 12)%nat then "\f"
  else if (n =? 8)%nat then "\b"
  else if ((32 <=? n) && (n <=? 126))%nat then String c EmptyString
  else "\u00" ++ hex_digit (n / 16) ++ hex_digit (n mod 16).

Fixpoint escape (s : string) : string :=
  match s with
  | EmptyString => EmptyString
  | String c s' => escape_char c ++ escape s'
  end.

Definition encode_basestring_ascii (s : string) : string :=
  DQ ++ escape s ++ DQ.

Fixpoint spaces (n : nat) : string :=
  match n with
  | O => EmptyString
  | S k => String " " (spaces k)
  end.

(** [sep.join(parts)] *)
Fixpoint join (sep : string) (parts : list string) : string :=
  match parts with
  | [] => EmptyString
  | [p] => p
  | p :: ps => p ++ sep ++ join sep ps
  end.

(** The encoder at nesting depth [level]: an empty object is [{}]; otherwise
    each item stands on a line of its own, indented by [indent] spaces per
    level, items separated by a comma and key from value by colon-space. *)
Fixpoint iterencode (indent level : nat) (j : json) : string :=
  match j with
  | JString s => encode_basestring_ascii s
  | JObject [] => "{}"
  | JObject items =>
      let newline_indent := LF ++ spaces (indent * S level) in
      "{" ++ newline_indent
      ++ join ("," ++ newline_indent)
           (map (fun kv =>
                   encode_basestring_ascii (fst kv) ++ ": "
                   ++ iterencode indent (S level) (snd kv)) items)
      ++ LF ++ spaces (indent * level) ++ "}"
  end.

Definition json_of_record (info : record) : json :=
  JObject (map (fun kv => (fst kv, JString (snd kv))) info).

Definition json_of_deps (st : deps) : json :=
  JObject (map (fun ni => (fst ni, json_of_record (snd ni))) st).

Definition json_dumps (indent : nat) (st : deps) : string :=
  iterencode indent 0 (json_of_deps st).

(** ** generate_report and main *)

(** One turn of the text loop: [report += ...] four times. *)
Definition report_block (report : string) (item : string * record) : string :=
  let package_name := fst item in
  let info := snd item in
  let report := report ++ (LF ++ "Package: " ++ package_name ++ LF) in
  let report :=
    report ++ ("  Version: " ++ dict_get_default "version" "UNKNOWN" info ++ LF) in
  let report :=
    report ++ ("  License: " ++ dict_get_default "license" "UNKNOWN" info ++ LF) in
  report ++ ("  Homepage: " ++ dict_get_default "homepage" "UNKNOWN" info ++ LF).

Definition generate_report (output_format : string) (st : deps) : string :=
  if String.eqb output_format "json" then json_dumps 4 st
  else fold_left report_block st ("License Compliance Report:" ++ LF).

Record process : Type := { exit_status : nat; printed : string }.

(** [main()], from the validated arguments on: [isdir] is what
    [os.path.isdir(project_path)] answered. [print] adds the final newline.
    [except Exception] turns an escaping exception into exit status 1, and a
    [SystemExit] passes through it with its own code. *)
Definition main (subprocess_run : system) (isdir : bool)
    (output_format : string) : process :=
  if negb isdir then {| exit_status := 1; printed := EmptyString |}
  else
    match scan_licenses subprocess_run [] with
    | (Ok _, st) =>
        {| exit_status := 0;
           printed := generate_report output_format st ++ LF |}
    | (Raise (SystemExit code), _) =>
        {| exit_status := code; printed := EmptyString |}
    | (Raise _, _) => {| exit_status := 1; printed := EmptyString |}
    end.

(** * Vocabulary of the statements *)

(** ** Sample systems *)

Definition sys_of (freeze : completed) (show : string -> completed) : system :=
  fun command =>
    match command with
    | ["pip"; "freeze"] => freeze
    | ["pip"; "show"; package_name] => show package_name
    | _ => LaunchFailure
    end.

Definition sample_show (package_name : string) : completed :=
  if String.eqb package_name "alpha" then
    Completed ("License: MIT" ++ LF ++ "Home-page: http://a.example" ++ LF)
  else NonZeroExit.

Definition sample_sys : system :=
  sys_of (Completed ("alpha==1.0" ++ LF ++ "beta==2.3" ++ LF)) sample_show.

(** ** Predicates and derived functions *)

Definition is_license_line (line : string) : bool :=
  startswith "license:" (lower line).

Definition is_homepage_line (line : string) : bool :=
  startswith "home-page:" (lower line).

Definition failed (c : completed) : bool :=
  match c with Completed _ => false | _ => true end.

(** What [line.split(':', 1)[1]] is when it exists. *)
Definition after_colon (line : string) : string :=
  nth 1 (split ":" (Some 1) line) EmptyString.

(** The effect of the [pip show] loop on the one record it touches, and the
    value of [license_info] at its end. *)
Fixpoint scan_record (lines : list string) (info : record) : string * record :=
  match lines with
  | [] => ("UNKNOWN", info)
  | line :: rest =>
      if is_license_line line then (strip (after_colon line), info)
      else if is_homepage_line line then
        scan_record rest (dict_set "homepage" (strip (after_colon line)) info)
      else scan_record rest info
  end.

(** The record of a package after [_get_license_info], from what [pip show]
    did and the record before. *)
Definition resolved (c : completed) (info : record) : record :=
  match c with
  | Completed stdout =>
      let r := scan_record (splitlines (strip stdout)) info in
      dict_set "license" (fst r) (snd r)
  | _ => dict_set "license" "UNKNOWN" info
  end.

Definition show_of (subprocess_run : system) (package_name : string)
  : completed := subprocess_run ["pip"; "show"; package_name].

Definition resolve_all (subprocess_run : system) (st : deps) : deps :=
  map (fun ni => (fst ni, resolved (show_of subprocess_run (fst ni)) (snd ni)))
      st.

(** A record as enumeration leaves it. *)
Definition fresh_record (info : record) : Prop :=
  exists v, info = [("version", v)].

(** What holds of the mapping all through enumeration: names are unique and
    each record holds a version and nothing else. *)
Definition enumerated (st : deps) : Prop :=
  NoDup (keys st) /\ Forall (fun ni => fresh_record (snd ni)) st.

(** A string between double quotes, as it stands in a JSON text. *)
Definition quoted (s : string) : string := DQ ++ s ++ DQ.

(** What the text report shows for a field. *)
Definition displayed (field : option string) : string :=
  match field with Some v => v | None => "UNKNOWN" end.

(** The field order the specification gives for a record in the JSON report. *)
Definition spec_field_order (info : record) : Prop :=
  keys info = ["version"; "license"]
  \/ keys info = ["version"; "license"; "homepage"].

(** Splitting on the first occurrence only, as the specification words it. *)
Definition split_on_first (sep line : string) : list string :=
  split sep (Some 1) line.

(** [pip show] answering with the home page before the license, the order
    in which pip prints them. *)
Definition homepage_first_sys : system :=
  sys_of (Completed "alpha==1.0")
    (fun _ => Completed ("Home-page: http://a.example" ++ LF ++ "License: MIT")).

(** [pip freeze] naming one package twice. *)
Definition twice_sys : system :=
  sys_of (Completed ("a==1" ++ LF ++ "b==7" ++ LF ++ "a==2"))
    (fun _ => NonZeroExit).

(** ** Vocabulary of the further properties *)

(** Whether the two-name unpacking of a line of [pip freeze] goes through:
    the line has no separator, or it splits in exactly two parts. *)
Definition unpacks (line : string) : bool :=
  negb (contains "==" line)
  || (List.length (split "==" None line) =? 2)%nat.

Fixpoint all_space (s : string) : bool :=
  match s with
  | EmptyString => true
  | String c s' => isspace c && all_space s'
  end.

(** The name and version of every line that yields an entry, in line order. *)
Definition freeze_entries (lines : list string) : list (string * string) :=
  flat_map
    (fun line =>
       if contains "==" line then
         match split "==" None line with
         | [n; v] => [(n, v)]
         | _ => []
         end
       else [])
    lines.

(** [pip freeze] printing only lines that name no version. *)
Definition unversioned_sys : system :=
  sys_of (Completed ("-e /home/dev/project" ++ LF ++ "# local checkout" ++ LF))
    (fun _ => NonZeroExit).

(** [pip freeze] exiting with a non-zero status. *)
Definition broken_freeze_sys : system :=
  sys_of NonZeroExit (fun _ => Completed "License: MIT").

(** Whether every character is a printable ASCII character or a line feed. *)
Fixpoint plain_ascii (s : string) : bool :=
  match s with
  | EmptyString => true
  | String c s' =>
      let n := nat_of_ascii c in
      ((((32 <=? n) && (n <=? 126)) || (n =? 10))%nat) && plain_ascii s'
  end.

(** Reading a JSON string back, from after its opening quote to its closing
    quote: the inverse of [escape], by which the report is shown to be
    readable in one way only. *)
Definition hex_value (c : ascii) : option nat :=
  let n := nat_of_ascii c in
  if ((48 <=? n) && (n <=? 57))%nat then Some (n - 48)
  else if ((97 <=? n) && (n <=? 102))%nat then Some (n - 87)
  else None.

Definition short_escape (e : ascii) : option ascii :=
  let n := nat_of_ascii e in
  if (n =? 34)%nat then Some (ascii_of_nat 34)
  else if (n =? 92)%nat then Some (ascii_of_nat 92)
  else if (n =? 110)%nat then Some (ascii_of_nat 10)
  else if (n =? 114)%nat then Some (ascii_of_nat 13)
  else if (n =? 116)%nat then Some (ascii_of_nat 9)
  else if (n =? 102)%nat then Some (ascii_of_nat 12)
  else if (n =? 98)%nat then Some (ascii_of_nat 8)
  else None.

Definition read_more (c : ascii) (r : option (string * string))
  : option (string * string) :=
  match r with
  | Some (body, rest) => Some (String c body, rest)
  | None => None
  end.

Fixpoint read_string (s : string) : option (string * string) :=
  match s with
  | EmptyString => None
  | String c s1 =>
      if (nat_of_ascii c =? 34)%nat then Some (EmptyString, s1)
      else if (nat_of_ascii c =? 92)%nat then
        match s1 with
        | EmptyString => None
        | String e s2 =>
            if (nat_of_ascii e =? 117)%nat then
              match s2 with
              | String z1 (String z2 (String h1 (String h2 s3))) =>
                  match hex_value h1, hex_value h2 with
                  | Some a, Some b =>
                      if ((nat_of_ascii z1 =? 48) && (nat_of_ascii z2 =? 48))%nat
                      then read_more (ascii_of_nat (16 * a + b)) (read_string s3)
                      else None
                  | _, _ => None
                  end
              | _ => None
              end
            else
              match short_escape e with
              | Some ch => read_more ch (read_string s2)
              | None => None
              end
        end
      else read_more c (read_string s1)
  end.

(** The text of a JSON object from the texts of its items: [inner] is the
    indentation of the items and [outer] that of the closing brace. *)
Definition object_text (inner outer : string) (parts : list string) : string :=
  match parts with
  | [] => "{}"
  | _ =>
      "{" ++ (LF ++ inner) ++ join ("," ++ (LF ++ inner)) parts
      ++ LF ++ outer ++ "}"
  end.

(** The entry a line of [pip freeze] makes, as a step on the mapping. *)
Definition set_version (d : deps) (nv : string * string) : deps :=
  dict_set (fst nv) [("version", snd nv)] d.

(** * Properties *)

(** ** The primitives on samples *)

Example splitlines_ex :
  splitlines ("a" ++ LF ++ LF ++ "b" ++ CR ++ LF ++ "c" ++ LF)
  = ["a"; EmptyString; "b"; "c"].
Proof. reflexivity. Qed.

Example split_ex1 : split "==" None "a==1==2" = ["a"; "1"; "2"].
Proof. reflexivity. Qed.

Example split_ex2 : split "==" None "a===b" = ["a"; "=b"].
Proof. reflexivity. Qed.

Example split_ex3 : split ":" (Some 1) "License: a:b" = ["License"; " a:b"].
Proof. reflexivity. Qed.

Example split_ex4 : split "==" None "a==" = ["a"; EmptyString].
Proof. reflexivity. Qed.

Example strip_ex : strip ("  MIT License " ++ LF) = "MIT License".
Proof. reflexivity. Qed.

Example lower_ex : lower "LiCeNsE: Mit" = "license: mit".
Proof. reflexivity. Qed.

Example escape_ex :
  encode_basestring_ascii ("a" ++ DQ ++ "\" ++ chr 233 ++ LF ++ chr 127)
  = DQ ++ "a\" ++ DQ ++ "\\\u00e9\n\u007f" ++ DQ.
Proof. reflexivity. Qed.

Example dict_order_ex :
  dict_set "a" 3 (dict_set "b" 2 (dict_set "a" 1 [])) = [("a", 3); ("b", 2)].
Proof. reflexivity. Qed.

(** ** Dictionaries *)

Section DictFacts.

Context {V : Type}.
Implicit Types (d : dict V) (k : string) (v : V).

Lemma dict_get_set_same k v d : dict_get k (dict_set k v d) = Some v.
Proof.
  induction d as [|[k' v'] d IH]; simpl.
  - now rewrite String.eqb_refl.
  - destruct (String.eqb k' k) eqn:E; simpl.
    + now rewrite String.eqb_refl.
    + now rewrite E.
Qed.

Lemma dict_get_set_other k k0 v d :
  k0 <> k -> dict_get k0 (dict_set k v d) = dict_get k0 d.
Proof.
  intros Hne. induction d as [|[k' v'] d IH]; simpl.
  - destruct (String.eqb k k0) eqn:E; [|reflexivity].
    apply String.eqb_eq in E. congruence.
  - destruct (String.eqb k' k) eqn:E; simpl.
    + apply String.eqb_eq in E. subst k'.
      destruct (String.eqb k k0) eqn:E0; [|reflexivity].
      apply String.eqb_eq in E0. congruence.
    + now rewrite IH.
Qed.

Lemma dict_set_set k v1 v2 d :
  dict_set k v2 (dict_set k v1 d) = dict_set k v2 d.
Proof.
  induction d as [|[k' v'] d IH]; simpl.
  - now rewrite String.eqb_refl.
  - destruct (String.eqb k' k) eqn:E; simpl.
    + now rewrite String.eqb_refl.
    + now rewrite E, IH.
Qed.

Lemma dict_set_same k v d : dict_get k d = Some v -> dict_set k v d = d.
Proof.
  induction d as [|[k' v'] d IH]; simpl; [discriminate|].
  destruct (String.eqb k' k) eqn:E.
  - apply String.eqb_eq in E. intros [= ->]. now subst.
  - intros H. now rewrite IH.
Qed.

Lemma dict_get_In k d : dict_get k d <> None <-> In k (keys d).
Proof.
  induction d as [|[k' v'] d IH]; simpl; [tauto|].
  destruct (String.eqb k' k) eqn:E.
  - apply String.eqb_eq in E. split; [auto | discriminate].
  - apply String.eqb_neq in E. rewrite IH. tauto.
Qed.

Lemma dict_get_None k d : dict_get k d = None <-> ~ In k (keys d).
Proof.
  rewrite <- dict_get_In. destruct (dict_get k d); split; try congruence.
  intros H. exfalso. apply H. discriminate.
Qed.

Lemma keys_set_present k v d : In k (keys d) -> keys (dict_set k v d) = keys d.
Proof.
  induction d as [|[k' v'] d IH]; simpl; [tauto|].
  destruct (String.eqb k' k) eqn:E; simpl.
  - apply String.eqb_eq in E. now subst.
  - apply String.eqb_neq in E. intros [H|H]; [congruence|]. now rewrite IH.
Qed.

Lemma keys_set_absent k v d :
  ~ In k (keys d) -> keys (dict_set k v d) = (keys d ++ [k])%list.
Proof.
  induction d as [|[k' v'] d IH]; simpl; [reflexivity|].
  destruct (String.eqb k' k) eqn:E; simpl.
  - apply String.eqb_eq in E. tauto.
  - intros H. rewrite IH; tauto.
Qed.

Lemma keys_set_NoDup k v d : NoDup (keys d) -> NoDup (keys (dict_set k v d)).
Proof.
  intros H. destruct (in_dec string_dec k (keys d)) as [Hin|Hin].
  - now rewrite keys_set_present.
  - rewrite keys_set_absent by assumption.
    apply NoDup_app; auto.
    + constructor; [simpl; tauto | constructor].
    + intros x Hx [<-|[]]. contradiction.
Qed.

Lemma dict_set_middle k v v0 d1 d2 :
  ~ In k (keys d1) ->
  dict_set k v (d1 ++ (k, v0) :: d2)%list = (d1 ++ (k, v) :: d2)%list.
Proof.
  induction d1 as [|[k' v'] d1 IH]; simpl; intros H.
  - now rewrite String.eqb_refl.
  - destruct (String.eqb k' k) eqn:E.
    + apply String.eqb_eq in E. tauto.
    + rewrite IH; tauto.
Qed.

Lemma dict_get_middle k v0 d1 d2 :
  ~ In k (keys d1) -> dict_get k (d1 ++ (k, v0) :: d2)%list = Some v0.
Proof.
  induction d1 as [|[k' v'] d1 IH]; simpl; intros H.
  - now rewrite String.eqb_refl.
  - destruct (String.eqb k' k) eqn:E.
    + apply String.eqb_eq in E. tauto.
    + apply IH. tauto.
Qed.

Lemma dict_get_In_pair k v d : dict_get k d = Some v -> In (k, v) d.
Proof.
  induction d as [|[k' v'] d IH]; simpl; [discriminate|].
  destruct (String.eqb k' k) eqn:E.
  - apply String.eqb_eq in E. intros [= ->]. left. now subst.
  - auto.
Qed.

Lemma In_pair_dict_get k v d :
  NoDup (keys d) -> In (k, v) d -> dict_get k d = Some v.
Proof.
  induction d as [|[k' v'] d IH]; simpl; [tauto|].
  intros Hnd [H|H].
  - injection H as -> ->. now rewrite String.eqb_refl.
  - inversion Hnd as [|? ? Hnotin Hnd']; subst.
    destruct (String.eqb k' k) eqn:E.
    + apply String.eqb_eq in E. subst k'. exfalso. apply Hnotin.
      change k with (fst (k, v)). now apply in_map.
    + auto.
Qed.

End DictFacts.

(** ** Strings *)

Lemma append_assoc (a b c : string) : (a ++ b) ++ c = a ++ (b ++ c).
Proof. induction a as [|x a IH]; simpl; [reflexivity | now rewrite IH]. Qed.

Lemma append_empty_r (a : string) : a ++ EmptyString = a.
Proof. induction a as [|x a IH]; simpl; [reflexivity | now rewrite IH]. Qed.

Lemma prefix_empty (s : string) : String.prefix EmptyString s = true.
Proof. now destruct s. Qed.

Lemma prefix_cons (x c : ascii) (p s : string) :
  String.prefix (String x p) (String c s) = Ascii.eqb x c && String.prefix p s.
Proof.
  simpl. destruct (ascii_dec x c) as [->|Hne].
  - now rewrite Ascii.eqb_refl.
  - apply Ascii.eqb_neq in Hne. now rewrite Hne.
Qed.

Lemma contains_char_cons (x c : ascii) (s : string) :
  contains (String x EmptyString) (String c s)
  = Ascii.eqb x c || contains (String x EmptyString) s.
Proof.
  change (contains (String x EmptyString) (String c s))
    with (String.prefix (String x EmptyString) (String c s)
          || contains (String x EmptyString) s).
  now rewrite prefix_cons, prefix_empty, andb_true_r.
Qed.

Lemma lower_char_colon (c : ascii) : lower_char c = ":"%char <-> c = ":"%char.
Proof.
  split; [|now intros ->].
  destruct c as [[] [] [] [] [] [] [] []]; vm_compute; congruence.
Qed.

(** A line whose lowercased form starts with [p] followed by a colon has its
    first colon right after the characters that lowercase to [p]. *)
Lemma keyed_line_shape (p : string) :
  contains ":" p = false ->
  forall line, String.prefix (p ++ ":") (lower line) = true ->
  exists a b, line = a ++ ":" ++ b /\ contains ":" a = false /\ lower a = p.
Proof.
  induction p as [|x p IH]; intros Hp line H.
  - destruct line as [|c b]; [discriminate|].
    simpl lower in H. simpl append in H. rewrite prefix_cons in H.
    apply andb_true_iff in H as [Hc _].
    apply Ascii.eqb_eq in Hc. symmetry in Hc.
    apply (proj1 (lower_char_colon c)) in Hc.
    subst c. now exists EmptyString, b.
  - destruct line as [|c line]; [discriminate|].
    rewrite contains_char_cons in Hp. apply orb_false_iff in Hp as [Hx Hp].
    simpl lower in H. simpl append in H. rewrite prefix_cons in H.
    apply andb_true_iff in H as [Hc H].
    apply Ascii.eqb_eq in Hc.
    destruct (IH Hp line H) as (a & b & -> & Ha & Hl).
    exists (String c a), b. repeat split.
    + rewrite contains_char_cons, Ha, orb_false_r.
      apply Ascii.eqb_neq. intros <-.
      apply Ascii.eqb_neq in Hx. apply Hx. now rewrite Hc.
    + simpl. now rewrite Hl, Hc.
Qed.

Lemma split_exhausted (sep s : string) : split_go sep 0 (Some 0) s = [s].
Proof. induction s as [|c s IH]; simpl; [reflexivity | now rewrite IH]. Qed.

(** [split] with [maxsplit = 1] on a one-character separator cuts at the
    first occurrence. *)
Lemma split_first (x : ascii) (a b : string) :
  contains (String x EmptyString) a = false ->
  split (String x EmptyString) (Some 1) (a ++ String x b) = [a; b].
Proof.
  unfold split. induction a as [|c a IH]; intros Ha.
  - cbn [append split_go]. rewrite prefix_cons, Ascii.eqb_refl, prefix_empty.
    simpl. now rewrite split_exhausted.
  - rewrite contains_char_cons in Ha. apply orb_false_iff in Ha as [Hc Ha].
    cbn [append split_go]. rewrite prefix_cons, Hc. simpl.
    now rewrite (IH Ha).
Qed.

Lemma license_line_shape (line : string) :
  is_license_line line = true ->
  exists a b, line = a ++ ":" ++ b /\ contains ":" a = false
              /\ after_colon line = b.
Proof.
  intros H. destruct (keyed_line_shape "license" eq_refl line H)
    as (a & b & -> & Ha & _).
  exists a, b. repeat split; trivial.
  unfold after_colon. change (a ++ ":" ++ b) with (a ++ String ":"%char b).
  now rewrite (split_first ":" a b Ha).
Qed.

Lemma homepage_line_shape (line : string) :
  is_homepage_line line = true ->
  exists a b, line = a ++ ":" ++ b /\ contains ":" a = false
              /\ after_colon line = b.
Proof.
  intros H. destruct (keyed_line_shape "home-page" eq_refl line H)
    as (a & b & -> & Ha & _).
  exists a, b. repeat split; trivial.
  unfold after_colon. change (a ++ ":" ++ b) with (a ++ String ":"%char b).
  now rewrite (split_first ":" a b Ha).
Qed.

Lemma index1_after_colon (a b : string) (st : deps) :
  contains ":" a = false ->
  index1 (split ":" (Some 1) (a ++ ":" ++ b)) st = (Ok b, st).
Proof.
  intros Ha. change (a ++ ":" ++ b) with (a ++ String ":"%char b).
  now rewrite (split_first ":" a b Ha).
Qed.

(** ** License resolution: one package *)

Lemma scan_show_spec (package_name : string) (lines : list string) :
  forall st info,
    dict_get package_name st = Some info ->
    scan_show package_name lines st
    = (Ok (fst (scan_record lines info)),
       dict_set package_name (snd (scan_record lines info)) st).
Proof.
  induction lines as [|line rest IH]; intros st info Hget; simpl.
  - unfold ret. now rewrite (dict_set_same _ _ _ Hget).
  - fold (is_license_line line). fold (is_homepage_line line).
    destruct (is_license_line line) eqn:Hl.
    + destruct (license_line_shape line Hl) as (a & b & Hline & Ha & Hb).
      rewrite Hb. unfold bind. rewrite Hline, (index1_after_colon a b st Ha).
      simpl. unfold ret. now rewrite (dict_set_same _ _ _ Hget).
    + destruct (is_homepage_line line) eqn:Hh; [|now apply IH].
      destruct (homepage_line_shape line Hh) as (a & b & Hline & Ha & Hb).
      rewrite Hb. unfold bind at 1. rewrite Hline at 1.
      rewrite (index1_after_colon a b st Ha).
      unfold bind, set_field. rewrite Hget.
      rewrite (IH _ (dict_set "homepage" (strip b) info)).
      * now rewrite dict_set_set.
      * apply dict_get_set_same.
Qed.

Lemma _get_license_info_spec (sys : system) (package_name : string) :
  forall st info,
    dict_get package_name st = Some info ->
    _get_license_info sys package_name st
    = (Ok tt,
       dict_set package_name (resolved (show_of sys package_name) info) st).
Proof.
  intros st info Hget.
  unfold _get_license_info, try_except, bind, _execute_command, resolved,
    show_of.
  destruct (sys ["pip"; "show"; package_name]) as [stdout| |]; simpl.
  - unfold ret. rewrite (scan_show_spec _ _ st info Hget).
    unfold set_field. rewrite dict_get_set_same. now rewrite dict_set_set.
  - unfold set_field. now rewrite Hget.
  - unfold set_field. now rewrite Hget.
Qed.

(** ** License resolution: the loop over the mapping *)

Lemma keys_app {V : Type} (d1 d2 : dict V) :
  keys (d1 ++ d2)%list = (keys d1 ++ keys d2)%list.
Proof. apply map_app. Qed.

Lemma for_each_package_spec (sys : system) :
  forall suf pre,
    NoDup (keys (pre ++ suf)%list) ->
    for_each_package sys (keys suf) (pre ++ suf)%list
    = (Ok tt, (pre ++ resolve_all sys suf)%list).
Proof.
  induction suf as [|[n info] suf IH]; intros pre Hnd; simpl.
  - reflexivity.
  - assert (Hfresh : ~ In n (keys pre)).
    { rewrite keys_app in Hnd. simpl in Hnd.
      apply NoDup_remove_2 in Hnd. intros Hin. apply Hnd.
      apply in_or_app. now left. }
    unfold bind.
    rewrite (_get_license_info_spec sys n _ info)
      by now apply dict_get_middle.
    rewrite dict_set_middle by assumption.
    set (info' := resolved (show_of sys n) info).
    change (pre ++ (n, info') :: suf)%list
      with (pre ++ [(n, info')] ++ suf)%list.
    rewrite app_assoc, IH.
    + now rewrite <- app_assoc.
    + rewrite <- app_assoc. simpl.
      rewrite keys_app in *. exact Hnd.
Qed.

Lemma keys_resolve_all (sys : system) (st : deps) :
  keys (resolve_all sys st) = keys st.
Proof.
  unfold keys, resolve_all. rewrite map_map. now apply map_ext.
Qed.

Lemma dict_get_resolve_all (sys : system) (package_name : string) (st : deps) :
  dict_get package_name (resolve_all sys st)
  = option_map (resolved (show_of sys package_name))
      (dict_get package_name st).
Proof.
  induction st as [|[n info] st IH]; simpl; [reflexivity|].
  destruct (String.eqb n package_name) eqn:E; [|exact IH].
  apply String.eqb_eq in E. now subst.
Qed.

(** ** Enumeration *)

Lemma Forall_dict_set {V : Type} (P : string * V -> Prop) k v (d : dict V) :
  P (k, v) -> Forall P d -> Forall P (dict_set k v d).
Proof.
  intros Hkv. induction 1 as [|[k' v'] d Hx Hd IH]; simpl.
  - now constructor.
  - destruct (String.eqb k' k); constructor; assumption.
Qed.

Lemma enumerated_set (n v : string) (st : deps) :
  enumerated st -> enumerated (dict_set n [("version", v)] st).
Proof.
  intros [Hnd Hall]. split.
  - now apply keys_set_NoDup.
  - apply Forall_dict_set; [now exists v | assumption].
Qed.

Lemma parse_freeze_enumerated (lines : list string) :
  forall st o st',
    parse_freeze lines st = (o, st') -> enumerated st -> enumerated st'.
Proof.
  induction lines as [|line rest IH]; intros st o st' H Hinv; simpl in H.
  - now injection H as _ <-.
  - unfold bind in H. destruct (contains "==" line).
    + destruct (split "==" None line) as [|a [|b [|c parts]]];
        simpl in H; try (now injection H as _ <-).
      eapply IH; [exact H | now apply enumerated_set].
    + simpl in H. eapply IH; eassumption.
Qed.

Lemma _get_dependencies_Ok (sys : system) (st st' : deps) :
  _get_dependencies sys st = (Ok tt, st') <->
  exists stdout, sys ["pip"; "freeze"] = Completed stdout
                 /\ parse_freeze (splitlines (strip stdout)) st = (Ok tt, st').
Proof.
  unfold _get_dependencies, try_except, bind, _execute_command.
  destruct (sys ["pip"; "freeze"]) as [stdout| |]; simpl.
  - destruct (parse_freeze (splitlines (strip stdout)) st) as [[[]|e] st1] eqn:E.
    + split.
      * intros [= <-]. now exists stdout.
      * intros (? & [= <-] & H). rewrite E in H. now injection H as <-.
    + split.
      * destruct e; discriminate.
      * intros (? & [= <-] & H). rewrite E in H. discriminate.
  - split; [discriminate | now intros (? & ? & _)].
  - split; [discriminate | now intros (? & ? & _)].
Qed.

Lemma _get_dependencies_enumerated (sys : system) (o : outcome unit)
    (st : deps) :
  _get_dependencies sys [] = (o, st) -> enumerated st.
Proof.
  assert (H0 : enumerated []) by (split; constructor).
  unfold _get_dependencies, try_except, bind, _execute_command.
  destruct (sys ["pip"; "freeze"]) as [stdout| |]; simpl.
  - destruct (parse_freeze (splitlines (strip stdout)) []) as [[[]|e] st1] eqn:E.
    + intros [= _ <-]. eapply parse_freeze_enumerated; eassumption.
    + intros H. assert (st = st1) as ->.
      { destruct e; simpl in H; now injection H. }
      eapply parse_freeze_enumerated; eassumption.
  - now intros [= _ <-].
  - now intros [= _ <-].
Qed.

(** The whole scan: enumeration, then every record resolved on its own. *)
Lemma scan_licenses_spec (sys : system) :
  scan_licenses sys []
  = match _get_dependencies sys [] with
    | (Ok _, st) => (Ok tt, resolve_all sys st)
    | (Raise e, st) => (Raise e, st)
    end.
Proof.
  unfold scan_licenses, bind.
  destruct (_get_dependencies sys []) as [[[]|e] st] eqn:E; [|reflexivity].
  apply _get_dependencies_enumerated in E as [Hnd _].
  exact (for_each_package_spec sys st [] Hnd).
Qed.

(** ** The scenario of the specification *)

Lemma sample_enumeration (sys : system) :
  sys ["pip"; "freeze"] = Completed ("alpha==1.0" ++ LF ++ "beta==2.3" ++ LF) ->
  _get_dependencies sys []
  = (Ok tt, [("alpha", [("version", "1.0")]); ("beta", [("version", "2.3")])]).
Proof.
  intros H. apply _get_dependencies_Ok. eexists. split; [exact H|].
  reflexivity.
Qed.

(** C1, as amended: with enumeration output [alpha==1.0], [beta==2.3], alpha's
    metadata [License: MIT] then [Home-page: http://a.example], and beta's
    metadata command failing, the final mapping holds exactly alpha with
    version 1.0 and license MIT and beta with version 2.3 and license UNKNOWN,
    neither with a homepage, and the JSON report prints exactly that. *)
Theorem C1_scenario_mapping_and_report (sys : system) :
  sys ["pip"; "freeze"] = Completed ("alpha==1.0" ++ LF ++ "beta==2.3" ++ LF) ->
  sys ["pip"; "show"; "alpha"]
  = Completed ("License: MIT" ++ LF ++ "Home-page: http://a.example" ++ LF) ->
  failed (sys ["pip"; "show"; "beta"]) = true ->
  scan_licenses sys []
  = (Ok tt, [("alpha", [("version", "1.0"); ("license", "MIT")]);
             ("beta", [("version", "2.3"); ("license", "UNKNOWN")])])
  /\ main sys true "json"
     = {| exit_status := 0;
          printed :=
            "{" ++ LF
            ++ "    " ++ quoted "alpha" ++ ": {" ++ LF
            ++ "        " ++ quoted "version" ++ ": " ++ quoted "1.0" ++ "," ++ LF
            ++ "        " ++ quoted "license" ++ ": " ++ quoted "MIT" ++ LF
            ++ "    }," ++ LF
            ++ "    " ++ quoted "beta" ++ ": {" ++ LF
            ++ "        " ++ quoted "version" ++ ": " ++ quoted "2.3" ++ "," ++ LF
            ++ "        " ++ quoted "license" ++ ": " ++ quoted "UNKNOWN" ++ LF
            ++ "    }" ++ LF
            ++ "}" ++ LF |}.
Proof.
  intros Hfreeze Halpha Hbeta.
  assert (Hscan : scan_licenses sys []
    = (Ok tt, [("alpha", [("version", "1.0"); ("license", "MIT")]);
               ("beta", [("version", "2.3"); ("license", "UNKNOWN")])])).
  { rewrite scan_licenses_spec, (sample_enumeration sys Hfreeze).
    unfold resolve_all, show_of. simpl map. rewrite Halpha.
    destruct (sys ["pip"; "show"; "beta"]); [discriminate| |]; reflexivity. }
  split; [exact Hscan|].
  unfold main. rewrite Hscan. reflexivity.
Qed.

Lemma C1_scenario_witness :
  scan_licenses sample_sys []
  = (Ok tt, [("alpha", [("version", "1.0"); ("license", "MIT")]);
             ("beta", [("version", "2.3"); ("license", "UNKNOWN")])])
  /\ exit_status (main sample_sys true "json") = 0.
Proof.
  destruct (C1_scenario_mapping_and_report sample_sys eq_refl eq_refl eq_refl)
    as [Hscan Hmain].
  split; [exact Hscan | now rewrite Hmain].
Defined.

(** C1 as the specification states it fails: in that very run alpha's
    record has no homepage, because the license line comes first. *)
Lemma C1_homepage_not_recorded :
  ~ (exists st info,
        scan_licenses sample_sys [] = (Ok tt, st)
        /\ dict_get "alpha" st = Some info
        /\ dict_get "homepage" info = Some "http://a.example").
Proof.
  intros (st & info & Hscan & Hget & Hhome).
  vm_compute in Hscan. injection Hscan as <-.
  vm_compute in Hget. injection Hget as <-.
  discriminate Hhome.
Qed.

(** ** Lines with more than one separator *)

(** C9: for the enumeration output [a==1==2], a line with two separators, the
    split has three parts, the unpacking into two names raises inside the
    enumerator, nothing there handles it, no entry is made, and the run ends
    with exit status 1 and nothing printed, whatever the metadata command
    would answer and whichever output format was asked for. *)
Theorem C9_two_separators_abort_the_run (show : string -> completed)
    (output_format : string) :
  let sys := sys_of (Completed "a==1==2") show in
  splitlines (strip "a==1==2") = ["a==1==2"]
  /\ contains "==" "a==1==2" = true
  /\ split "==" None "a==1==2" = ["a"; "1"; "2"]
  /\ _get_dependencies sys [] = (Raise ValueError, [])
  /\ scan_licenses sys [] = (Raise ValueError, [])
  /\ main sys true output_format
     = {| exit_status := 1; printed := EmptyString |}.
Proof. repeat split. Qed.

(** C3, where the code departs from it: the line [a==1==2] contains the
    separator, and splitting on the first occurrence gives the name [a] and
    the version [1==2]; the enumerator splits on every occurrence instead,
    the unpacking raises, and the mapping gains no entry. *)
Theorem C3_first_occurrence_split_not_done :
  contains "==" "a==1==2" = true
  /\ split_on_first "==" "a==1==2" = ["a"; "1==2"]
  /\ parse_freeze ["a==1==2"] [] = (Raise ValueError, [])
  /\ forall show, _get_dependencies (sys_of (Completed "a==1==2") show) []
                  = (Raise ValueError, []).
Proof. repeat split. Qed.

(** ** What the metadata loop records *)

Lemma scan_record_first_license (pre post : list string) (line : string) :
  Forall (fun l => is_license_line l = false) pre ->
  is_license_line line = true ->
  forall info,
    fst (scan_record (pre ++ line :: post) info) = strip (after_colon line).
Proof.
  induction 1 as [|l pre Hl _ IH]; intros Hline info; simpl.
  - now rewrite Hline.
  - rewrite Hl. destruct (is_homepage_line l); now apply IH.
Qed.

Lemma scan_record_no_license (lines : list string) :
  Forall (fun l => is_license_line l = false) lines ->
  forall info, fst (scan_record lines info) = "UNKNOWN".
Proof.
  induction 1 as [|l lines Hl _ IH]; intros info; simpl; [reflexivity|].
  rewrite Hl. destruct (is_homepage_line l); apply IH.
Qed.

Lemma scan_record_stops_before_homepage (pre post : list string)
    (line : string) :
  Forall (fun l => is_homepage_line l = false) pre ->
  is_license_line line = true ->
  forall info, snd (scan_record (pre ++ line :: post) info) = info.
Proof.
  induction 1 as [|l pre Hl _ IH]; intros Hline info; simpl.
  - now rewrite Hline.
  - rewrite Hl. destruct (is_license_line l); [reflexivity | now apply IH].
Qed.

Lemma resolved_has_license (c : completed) (info : record) :
  dict_get "license" (resolved c info) <> None.
Proof.
  destruct c; simpl; rewrite dict_get_set_same; discriminate.
Qed.

(** C4: when the metadata command succeeds and its output has a line whose
    lowercased form starts with [license:], resolution returns normally and
    the license recorded for the package is the text after the first colon
    of the first such line, stripped of surrounding whitespace, whatever
    lines follow it (more license lines included). The lines are those of
    the output as [_execute_command] hands it over. *)
Theorem C4_first_license_line_wins (sys : system) (package_name : string)
    (st : deps) (info : record) (stdout : string)
    (pre post : list string) (line a b : string) :
  dict_get package_name st = Some info ->
  sys ["pip"; "show"; package_name] = Completed stdout ->
  splitlines (strip stdout) = (pre ++ line :: post)%list ->
  Forall (fun l => is_license_line l = false) pre ->
  is_license_line line = true ->
  line = a ++ ":" ++ b ->
  contains ":" a = false ->
  exists st' info',
    _get_license_info sys package_name st = (Ok tt, st')
    /\ dict_get package_name st' = Some info'
    /\ dict_get "license" info' = Some (strip b).
Proof.
  intros Hget Hshow Hlines Hpre Hline Hab Ha.
  exists (dict_set package_name (resolved (show_of sys package_name) info) st),
    (resolved (show_of sys package_name) info).
  split; [apply _get_license_info_spec; exact Hget|].
  split; [apply dict_get_set_same|].
  unfold show_of, resolved. rewrite Hshow, Hlines.
  rewrite dict_get_set_same, (scan_record_first_license pre post line Hpre Hline).
  unfold after_colon. rewrite Hab.
  change (a ++ ":" ++ b) with (a ++ String ":"%char b).
  now rewrite (split_first ":" a b Ha).
Qed.

Lemma C4_first_license_line_wins_witness :
  exists st' info',
    _get_license_info
      (sys_of NonZeroExit
         (fun _ => Completed ("Name: x" ++ LF ++ "LICENSE:  MIT : ok " ++ LF
                              ++ "License: BSD")))
      "x" [("x", [("version", "1")])]
    = (Ok tt, st')
    /\ dict_get "x" st' = Some info'
    /\ dict_get "license" info' = Some "MIT : ok".
Proof.
  apply (C4_first_license_line_wins
           (sys_of NonZeroExit
              (fun _ => Completed ("Name: x" ++ LF ++ "LICENSE:  MIT : ok " ++ LF
                                   ++ "License: BSD")))
           "x" [("x", [("version", "1")])] [("version", "1")]
           ("Name: x" ++ LF ++ "LICENSE:  MIT : ok " ++ LF ++ "License: BSD")
           ["Name: x"] ["License: BSD"] "LICENSE:  MIT : ok "
           "LICENSE" "  MIT : ok ");
    try reflexivity.
  vm_compute. repeat constructor.
Defined.

(** C5: when the metadata command succeeds and no line of its output has a
    lowercased form starting with [license:], resolution returns normally
    and the license recorded for the package is exactly [UNKNOWN]. The lines
    are those of the output as [_execute_command] hands it over. *)
Theorem C5_no_license_line_gives_UNKNOWN (sys : system)
    (package_name : string) (st : deps) (info : record) (stdout : string) :
  dict_get package_name st = Some info ->
  sys ["pip"; "show"; package_name] = Completed stdout ->
  Forall (fun l => is_license_line l = false) (splitlines (strip stdout)) ->
  exists st' info',
    _get_license_info sys package_name st = (Ok tt, st')
    /\ dict_get package_name st' = Some info'
    /\ dict_get "license" info' = Some "UNKNOWN".
Proof.
  intros Hget Hshow Hnone.
  exists (dict_set package_name (resolved (show_of sys package_name) info) st),
    (resolved (show_of sys package_name) info).
  split; [apply _get_license_info_spec; exact Hget|].
  split; [apply dict_get_set_same|].
  unfold show_of, resolved. rewrite Hshow.
  now rewrite dict_get_set_same, (scan_record_no_license _ Hnone).
Qed.

Lemma C5_no_license_line_gives_UNKNOWN_witness :
  exists st' info',
    _get_license_info
      (sys_of NonZeroExit
         (fun _ => Completed ("Name: x" ++ LF ++ "Home-page: http://x.example")))
      "x" [("x", [("version", "1")])]
    = (Ok tt, st')
    /\ dict_get "x" st' = Some info'
    /\ dict_get "license" info' = Some "UNKNOWN".
Proof.
  apply (C5_no_license_line_gives_UNKNOWN
           (sys_of NonZeroExit
              (fun _ => Completed ("Name: x" ++ LF
                                   ++ "Home-page: http://x.example")))
           "x" [("x", [("version", "1")])] [("version", "1")]
           ("Name: x" ++ LF ++ "Home-page: http://x.example")
           eq_refl eq_refl).
  vm_compute. repeat constructor.
Defined.

Lemma scan_Ok_resolved (sys : system) (st : deps) :
  scan_licenses sys [] = (Ok tt, st) ->
  exists st0, _get_dependencies sys [] = (Ok tt, st0)
              /\ enumerated st0 /\ st = resolve_all sys st0.
Proof.
  rewrite scan_licenses_spec.
  destruct (_get_dependencies sys []) as [[[]|e] st0] eqn:E; [|discriminate].
  intros [= <-]. exists st0. repeat split; trivial.
  - eapply _get_dependencies_enumerated; eassumption.
  - eapply _get_dependencies_enumerated; eassumption.
Qed.

Lemma enumerated_get (st : deps) (package_name : string) (info : record) :
  enumerated st -> dict_get package_name st = Some info -> fresh_record info.
Proof.
  intros [_ Hall] Hget. apply dict_get_In_pair in Hget.
  rewrite Forall_forall in Hall. exact (Hall _ Hget).
Qed.

(** C2: in a completed scan, a package whose metadata output has a line
    starting (case-insensitively) with [license:] before every line starting
    with [home-page:] has no homepage in its record. *)
Theorem C2_homepage_after_license_is_missed (sys : system) (st : deps)
    (package_name : string) (info : record) (stdout : string)
    (pre post : list string) (line : string) :
  scan_licenses sys [] = (Ok tt, st) ->
  dict_get package_name st = Some info ->
  sys ["pip"; "show"; package_name] = Completed stdout ->
  splitlines (strip stdout) = (pre ++ line :: post)%list ->
  is_license_line line = true ->
  Forall (fun l => is_homepage_line l = false) pre ->
  dict_get "homepage" info = None.
Proof.
  intros Hscan Hget Hshow Hlines Hline Hpre.
  destruct (scan_Ok_resolved sys st Hscan) as (st0 & _ & Henum & ->).
  rewrite dict_get_resolve_all in Hget.
  destruct (dict_get package_name st0) as [info0|] eqn:H0; [|discriminate].
  injection Hget as <-.
  destruct (enumerated_get _ _ _ Henum H0) as [v ->].
  unfold show_of, resolved. rewrite Hshow, Hlines.
  rewrite (scan_record_stops_before_homepage pre post line Hpre Hline).
  now rewrite dict_get_set_other by discriminate.
Qed.

Lemma C2_homepage_after_license_is_missed_witness :
  dict_get "homepage" [("version", "1.0"); ("license", "MIT")] = None.
Proof.
  exact (C2_homepage_after_license_is_missed sample_sys
           [("alpha", [("version", "1.0"); ("license", "MIT")]);
            ("beta", [("version", "2.3"); ("license", "UNKNOWN")])]
           "alpha" [("version", "1.0"); ("license", "MIT")]
           ("License: MIT" ++ LF ++ "Home-page: http://a.example" ++ LF)
           [] ["Home-page: http://a.example"] "License: MIT"
           eq_refl eq_refl eq_refl eq_refl eq_refl (Forall_nil _)).
Defined.

(** ** Failures of the metadata command *)

Lemma _get_dependencies_ext (sys1 sys2 : system) (st : deps) :
  sys1 ["pip"; "freeze"] = sys2 ["pip"; "freeze"] ->
  _get_dependencies sys1 st = _get_dependencies sys2 st.
Proof.
  intros H. unfold _get_dependencies, try_except, bind, _execute_command.
  now rewrite H.
Qed.

(** C6: let enumeration have produced a mapping that holds package P, and
    let P's metadata command fail, by a non-zero exit status or by any other
    exception. Then the scan still returns normally with the same packages
    in the same order, P's record is its version and the license [UNKNOWN],
    every package of the mapping has a license recorded, and the record of
    every other package is what it is in a run where P's command answers
    anything else. *)
Theorem C6_failure_is_contained (sys : system) (st0 : deps) (P : string) :
  _get_dependencies sys [] = (Ok tt, st0) ->
  In P (keys st0) ->
  failed (sys ["pip"; "show"; P]) = true ->
  exists st,
    scan_licenses sys [] = (Ok tt, st)
    /\ keys st = keys st0
    /\ (exists v, dict_get P st0 = Some [("version", v)]
                  /\ dict_get P st
                     = Some [("version", v); ("license", "UNKNOWN")])
    /\ (forall Q, In Q (keys st0) ->
          exists info, dict_get Q st = Some info
                       /\ dict_get "license" info <> None)
    /\ (forall sys' : system,
          (forall command, command <> ["pip"; "show"; P] ->
                           sys' command = sys command) ->
          exists st', scan_licenses sys' [] = (Ok tt, st')
                      /\ forall Q, Q <> P -> dict_get Q st' = dict_get Q st).
Proof.
  intros Hdeps HP Hfail.
  exists (resolve_all sys st0).
  assert (Henum : enumerated st0)
    by (eapply _get_dependencies_enumerated; eassumption).
  split; [now rewrite scan_licenses_spec, Hdeps|].
  split; [apply keys_resolve_all|].
  split; [|split].
  - apply dict_get_In in HP.
    destruct (dict_get P st0) as [info|] eqn:HgetP; [|congruence].
    destruct (enumerated_get _ _ _ Henum HgetP) as [v ->].
    exists v. split; [reflexivity|].
    rewrite dict_get_resolve_all, HgetP. unfold show_of. simpl.
    destruct (sys ["pip"; "show"; P]); [discriminate| |]; reflexivity.
  - intros Q HQ. apply dict_get_In in HQ.
    destruct (dict_get Q st0) as [info|] eqn:HgetQ; [|congruence].
    exists (resolved (show_of sys Q) info). split.
    + now rewrite dict_get_resolve_all, HgetQ.
    + apply resolved_has_license.
  - intros sys' Hsame. exists (resolve_all sys' st0). split.
    + rewrite scan_licenses_spec.
      rewrite (_get_dependencies_ext sys' sys), Hdeps; [reflexivity|].
      apply Hsame. discriminate.
    + intros Q HQ. rewrite !dict_get_resolve_all. unfold show_of.
      rewrite Hsame; [reflexivity|]. intros [= E]. now apply HQ.
Qed.

Lemma C6_failure_is_contained_witness :
  exists st,
    scan_licenses sample_sys [] = (Ok tt, st)
    /\ dict_get "beta" st = Some [("version", "2.3"); ("license", "UNKNOWN")]
    /\ dict_get "alpha" st = Some [("version", "1.0"); ("license", "MIT")].
Proof.
  destruct (C6_failure_is_contained sample_sys
              [("alpha", [("version", "1.0")]); ("beta", [("version", "2.3")])]
              "beta" eq_refl (or_intror (or_introl eq_refl)) eq_refl)
    as (st & Hscan & _ & _ & _ & _).
  exists st. split; [exact Hscan|].
  vm_compute in Hscan. injection Hscan as <-. split; reflexivity.
Defined.

(** ** The text report *)

Lemma fold_report_extends (st : deps) :
  forall report, exists rest, fold_left report_block st report = report ++ rest.
Proof.
  induction st as [|item st IH]; intros report; simpl.
  - exists EmptyString. now rewrite append_empty_r.
  - destruct (IH (report_block report item)) as [rest ->].
    unfold report_block. eexists. rewrite !append_assoc. reflexivity.
Qed.

(** C8: in text mode, for every package of the mapping the report holds its
    block: the header line with the package name, then the Version, License
    and Homepage lines, each showing the field of the record, or [UNKNOWN]
    when the record has no such field. *)
Theorem C8_text_block_of_every_package (st : deps) (package_name : string)
    (info : record) :
  In (package_name, info) st ->
  exists before after,
    generate_report "text" st
    = before
      ++ LF ++ "Package: " ++ package_name ++ LF
      ++ "  Version: " ++ displayed (dict_get "version" info) ++ LF
      ++ "  License: " ++ displayed (dict_get "license" info) ++ LF
      ++ "  Homepage: " ++ displayed (dict_get "homepage" info) ++ LF
      ++ after.
Proof.
  intros Hin. apply in_split in Hin as (l1 & l2 & ->).
  change (generate_report "text" (l1 ++ (package_name, info) :: l2)%list)
    with (fold_left report_block (l1 ++ (package_name, info) :: l2)%list
            ("License Compliance Report:" ++ LF)).
  rewrite fold_left_app. cbn [fold_left].
  set (before := fold_left report_block l1 ("License Compliance Report:" ++ LF)).
  destruct (fold_report_extends l2 (report_block before (package_name, info)))
    as [after ->].
  exists before, after.
  unfold report_block, dict_get_default, displayed. cbn [fst snd].
  now rewrite !append_assoc.
Qed.

Lemma C8_text_block_of_every_package_witness :
  exists before after,
    generate_report "text"
      [("alpha", [("version", "1.0"); ("license", "MIT")]);
       ("beta", [("version", "2.3")])]
    = before
      ++ LF ++ "Package: beta" ++ LF
      ++ "  Version: 2.3" ++ LF
      ++ "  License: UNKNOWN" ++ LF
      ++ "  Homepage: UNKNOWN" ++ LF
      ++ after.
Proof.
  exact (C8_text_block_of_every_package
           [("alpha", [("version", "1.0"); ("license", "MIT")]);
            ("beta", [("version", "2.3")])]
           "beta" [("version", "2.3")] (or_intror (or_introl eq_refl))).
Defined.

(** ** Enumeration, line by line *)

Lemma parse_freeze_app (l1 l2 : list string) :
  forall st,
    parse_freeze (l1 ++ l2) st
    = match parse_freeze l1 st with
      | (Ok _, st1) => parse_freeze l2 st1
      | (Raise e, st1) => (Raise e, st1)
      end.
Proof.
  induction l1 as [|line l1 IH]; intros st; [reflexivity|].
  cbn [app parse_freeze]. unfold bind at 1 3.
  match goal with
  | |- context [match ?step st with _ => _ end] =>
      destruct (step st) as [[[]|e] st1]
  end; [apply IH | reflexivity].
Qed.

(** A line without the separator leaves the mapping as it is. *)
Lemma parse_freeze_skips (line : string) (st : deps) :
  contains "==" line = false -> parse_freeze [line] st = (Ok tt, st).
Proof. intros H. simpl. unfold bind. now rewrite H. Qed.

(** A line that splits in two parts sets the entry of its name. *)
Lemma parse_freeze_sets (line n v : string) (st : deps) :
  contains "==" line = true ->
  split "==" None line = [n; v] ->
  parse_freeze [line] st = (Ok tt, dict_set n [("version", v)] st).
Proof. intros H Hs. simpl. unfold bind. now rewrite H, Hs. Qed.

Lemma parse_freeze_total (lines : list string) :
  (forall l, In l lines -> contains "==" l = true ->
             List.length (split "==" None l) = 2) ->
  forall st, exists st', parse_freeze lines st = (Ok tt, st').
Proof.
  induction lines as [|line rest IH]; intros Hwf st.
  - now exists st.
  - assert (Hrest : forall l, In l rest -> contains "==" l = true ->
                              List.length (split "==" None l) = 2)
      by (intros l Hl; apply Hwf; now right).
    cbn [parse_freeze]. unfold bind at 1.
    destruct (contains "==" line) eqn:Hc.
    + specialize (Hwf line (or_introl eq_refl) Hc).
      destruct (split "==" None line) as [|a [|b [|c parts]]];
        try discriminate Hwf.
      simpl. apply (IH Hrest).
    + simpl. apply (IH Hrest).
Qed.

Lemma parse_freeze_other (n : string) (post : list string) :
  forall st st',
    parse_freeze post st = (Ok tt, st') ->
    (forall l' v', In l' post -> contains "==" l' = true ->
                   split "==" None l' <> [n; v']) ->
    dict_get n st' = dict_get n st.
Proof.
  induction post as [|line rest IH]; intros st st' H Hother.
  - now injection H as <-.
  - assert (Hrest : forall l' v', In l' rest -> contains "==" l' = true ->
                                  split "==" None l' <> [n; v'])
      by (intros l' v' Hl; apply Hother; now right).
    cbn [parse_freeze] in H. unfold bind at 1 in H.
    destruct (contains "==" line) eqn:Hc.
    + pose proof (Hother line) as Hline.
      destruct (split "==" None line) as [|a [|b [|c parts]]];
        simpl in H; try discriminate H.
      rewrite (IH _ _ H Hrest). apply dict_get_set_other.
      intros <-. apply (Hline b); auto. now left.
    + simpl in H. exact (IH _ _ H Hrest).
Qed.

(** C10: when every line of the enumeration output that contains the
    separator splits in two parts, enumeration returns a mapping, and for
    every name the mapping holds exactly one entry, whose version is that of
    the last line naming it, however many earlier lines name it too. *)
Theorem C10_last_line_of_a_name_wins (sys : system) (stdout : string) :
  sys ["pip"; "freeze"] = Completed stdout ->
  (forall l, In l (splitlines (strip stdout)) -> contains "==" l = true ->
             List.length (split "==" None l) = 2) ->
  exists st,
    _get_dependencies sys [] = (Ok tt, st)
    /\ forall pre line post n v,
         splitlines (strip stdout) = (pre ++ line :: post)%list ->
         contains "==" line = true ->
         split "==" None line = [n; v] ->
         (forall l' v', In l' post -> contains "==" l' = true ->
                        split "==" None l' <> [n; v']) ->
         count_occ string_dec (keys st) n = 1
         /\ dict_get n st = Some [("version", v)].
Proof.
  intros Hfreeze Hwf.
  destruct (parse_freeze_total _ Hwf []) as [st Hst].
  assert (Hdeps : _get_dependencies sys [] = (Ok tt, st))
    by (apply _get_dependencies_Ok; now exists stdout).
  exists st. split; [exact Hdeps|].
  intros pre line post n v Hlines Hc Hsplit Hlast.
  assert (Hget : dict_get n st = Some [("version", v)]).
  { rewrite Hlines, parse_freeze_app in Hst.
    destruct (parse_freeze pre []) as [[[]|e] st1]; [|discriminate].
    change (line :: post) with ([line] ++ post)%list in Hst.
    rewrite parse_freeze_app, (parse_freeze_sets line n v st1 Hc Hsplit) in Hst.
    rewrite (parse_freeze_other n post _ _ Hst Hlast).
    apply dict_get_set_same. }
  split; [|exact Hget].
  apply _get_dependencies_enumerated in Hdeps as [Hnd _].
  apply (proj1 (NoDup_count_occ' string_dec (keys st)) Hnd).
  apply dict_get_In. congruence.
Qed.

Lemma C10_last_line_of_a_name_wins_witness :
  exists st,
    _get_dependencies twice_sys [] = (Ok tt, st)
    /\ count_occ string_dec (keys st) "a" = 1
    /\ dict_get "a" st = Some [("version", "2")].
Proof.
  destruct (C10_last_line_of_a_name_wins twice_sys
              ("a==1" ++ LF ++ "b==7" ++ LF ++ "a==2") eq_refl)
    as (st & Hdeps & Hlast).
  - vm_compute. intros l [<-|[<-|[<-|[]]]] _; reflexivity.
  - exists st. split; [exact Hdeps|].
    apply (Hlast ["a==1"; "b==7"] "a==2" [] "a" "2");
      try reflexivity.
    intros l' v' [].
Defined.

(** ** The JSON report *)

Lemma scan_record_shape (lines : list string) :
  forall info v,
    info = [("version", v)] \/ (exists h, info = [("version", v); ("homepage", h)]) ->
    snd (scan_record lines info) = [("version", v)]
    \/ exists h, snd (scan_record lines info) = [("version", v); ("homepage", h)].
Proof.
  induction lines as [|line rest IH]; intros info v Hinfo; simpl.
  - exact Hinfo.
  - destruct (is_license_line line); [exact Hinfo|].
    destruct (is_homepage_line line); [|now apply IH].
    apply IH. right.
    destruct Hinfo as [->|[h ->]]; eexists; reflexivity.
Qed.

Lemma resolved_shape (c : completed) (v : string) :
  exists l,
    resolved c [("version", v)] = [("version", v); ("license", l)]
    \/ exists h,
         resolved c [("version", v)]
         = [("version", v); ("homepage", h); ("license", l)].
Proof.
  destruct c as [stdout| |]; simpl;
    try (exists "UNKNOWN"; now left).
  set (lines := splitlines (strip stdout)).
  exists (fst (scan_record lines [("version", v)])).
  destruct (scan_record_shape lines [("version", v)] v (or_introl eq_refl))
    as [->|[h ->]]; [left | right; exists h]; reflexivity.
Qed.

Lemma iterencode_object (indent level : nat) (items : list (string * json)) :
  items <> [] ->
  iterencode indent level (JObject items)
  = "{" ++ (LF ++ spaces (indent * S level))
    ++ join ("," ++ (LF ++ spaces (indent * S level)))
         (map (fun kv => encode_basestring_ascii (fst kv) ++ ": "
                         ++ iterencode indent (S level) (snd kv)) items)
    ++ LF ++ spaces (indent * level) ++ "}".
Proof. destruct items; [congruence | reflexivity]. Qed.

Lemma join_middle (c pre x : string) (l2 : list string) :
  forall l1, exists before after,
    pre ++ join (c ++ pre) (l1 ++ x :: l2) = before ++ pre ++ x ++ after.
Proof.
  induction l1 as [|p l1 IH].
  - exists EmptyString. destruct l2 as [|y l2].
    + exists EmptyString. simpl. now rewrite append_empty_r.
    + eexists. cbn [app join append]. reflexivity.
  - destruct IH as (before & after & IH).
    exists (pre ++ p ++ c ++ before), after.
    cbn [app]. destruct (l1 ++ x :: l2)%list as [|q rest] eqn:E.
    + now destruct l1.
    + change (join (c ++ pre) (p :: q :: rest))
        with (p ++ (c ++ pre) ++ join (c ++ pre) (q :: rest)).
      rewrite !append_assoc. now rewrite IH.
Qed.

Lemma json_report_entry (st : deps) (package_name : string) (info : record) :
  In (package_name, info) st ->
  exists before after,
    generate_report "json" st
    = before ++ LF ++ "    " ++ encode_basestring_ascii package_name ++ ": "
      ++ iterencode 4 1 (json_of_record info) ++ after.
Proof.
  intros Hin. apply in_split in Hin as (l1 & l2 & ->).
  change (generate_report "json" (l1 ++ (package_name, info) :: l2)%list)
    with (iterencode 4 0
            (json_of_deps (l1 ++ (package_name, info) :: l2)%list)).
  unfold json_of_deps. rewrite iterencode_object by (now destruct l1).
  rewrite !map_app. cbn [map fst snd].
  match goal with
  | |- context [join _ (?a ++ ?x :: ?b)%list] =>
      destruct (join_middle "," (LF ++ spaces (4 * 1)) x b a)
        as (before & after & Hj)
  end.
  exists ("{" ++ before), (after ++ LF ++ "}").
  rewrite <- (append_assoc (LF ++ spaces (4 * 1)) (join _ _) _), Hj.
  rewrite !append_assoc. reflexivity.
Qed.

(** C7, as amended: in JSON mode every record of a completed scan is printed
    with its fields in the order in which they were stored, which is
    [version], then [homepage] when there is one, then [license]: the record
    opens after the package name at four spaces, each field stands on a line
    of its own at eight spaces, and the closing brace at four. *)
Theorem C7_json_fields_in_stored_order (sys : system) (st : deps)
    (package_name : string) (info : record) :
  scan_licenses sys [] = (Ok tt, st) ->
  In (package_name, info) st ->
  exists v l before after,
    (info = [("version", v); ("license", l)]
     /\ generate_report "json" st
        = before ++ LF
          ++ "    " ++ encode_basestring_ascii package_name ++ ": {" ++ LF
          ++ "        " ++ quoted "version" ++ ": "
          ++ encode_basestring_ascii v ++ "," ++ LF
          ++ "        " ++ quoted "license" ++ ": "
          ++ encode_basestring_ascii l ++ LF
          ++ "    }" ++ after)
    \/ (exists h,
          info = [("version", v); ("homepage", h); ("license", l)]
          /\ generate_report "json" st
             = before ++ LF
               ++ "    " ++ encode_basestring_ascii package_name ++ ": {" ++ LF
               ++ "        " ++ quoted "version" ++ ": "
               ++ encode_basestring_ascii v ++ "," ++ LF
               ++ "        " ++ quoted "homepage" ++ ": "
               ++ encode_basestring_ascii h ++ "," ++ LF
               ++ "        " ++ quoted "license" ++ ": "
               ++ encode_basestring_ascii l ++ LF
               ++ "    }" ++ after).
Proof.
  intros Hscan Hin.
  destruct (json_report_entry st package_name info Hin)
    as (before & after & Hreport).
  destruct (scan_Ok_resolved sys st Hscan) as (st0 & _ & [_ Hfresh] & ->).
  apply in_map_iff in Hin as ([n0 info0] & [= <- <-] & Hin0).
  rewrite Forall_forall in Hfresh.
  destruct (Hfresh _ Hin0) as [v Hv]. cbn [fst snd] in *. subst info0.
  destruct (resolved_shape (show_of sys n0) v) as [l [Hl|[h Hl]]];
    rewrite Hl in *; exists v, l, before, after.
  - left. split; [reflexivity|]. rewrite Hreport.
    cbn [json_of_record map fst snd iterencode join].
    now rewrite !append_assoc.
  - right. exists h. split; [reflexivity|]. rewrite Hreport.
    cbn [json_of_record map fst snd iterencode join].
    now rewrite !append_assoc.
Qed.

Lemma C7_json_fields_in_stored_order_witness :
  exists v l before after,
    ([("version", "1.0"); ("homepage", "http://a.example"); ("license", "MIT")]
     = [("version", v); ("license", l)]
     /\ generate_report "json"
          [("alpha", [("version", "1.0"); ("homepage", "http://a.example");
                      ("license", "MIT")])]
        = before ++ LF
          ++ "    " ++ encode_basestring_ascii "alpha" ++ ": {" ++ LF
          ++ "        " ++ quoted "version" ++ ": "
          ++ encode_basestring_ascii v ++ "," ++ LF
          ++ "        " ++ quoted "license" ++ ": "
          ++ encode_basestring_ascii l ++ LF
          ++ "    }" ++ after)
    \/ (exists h,
          [("version", "1.0"); ("homepage", "http://a.example");
           ("license", "MIT")]
          = [("version", v); ("homepage", h); ("license", l)]
          /\ generate_report "json"
               [("alpha", [("version", "1.0"); ("homepage", "http://a.example");
                           ("license", "MIT")])]
             = before ++ LF
               ++ "    " ++ encode_basestring_ascii "alpha" ++ ": {" ++ LF
               ++ "        " ++ quoted "version" ++ ": "
               ++ encode_basestring_ascii v ++ "," ++ LF
               ++ "        " ++ quoted "homepage" ++ ": "
               ++ encode_basestring_ascii h ++ "," ++ LF
               ++ "        " ++ quoted "license" ++ ": "
               ++ encode_basestring_ascii l ++ LF
               ++ "    }" ++ after).
Proof.
  exact (C7_json_fields_in_stored_order homepage_first_sys
           [("alpha", [("version", "1.0"); ("homepage", "http://a.example");
                       ("license", "MIT")])]
           "alpha"
           [("version", "1.0"); ("homepage", "http://a.example");
            ("license", "MIT")]
           eq_refl (or_introl eq_refl)).
Defined.

(** C7 as the specification states it fails: when [pip show] prints the home
    page before the license, the record and the JSON report have [homepage]
    before [license], not after it. *)
Lemma C7_homepage_precedes_license :
  scan_licenses homepage_first_sys []
  = (Ok tt, [("alpha", [("version", "1.0"); ("homepage", "http://a.example");
                        ("license", "MIT")])])
  /\ ~ spec_field_order
       [("version", "1.0"); ("homepage", "http://a.example"); ("license", "MIT")]
  /\ generate_report "json"
       [("alpha", [("version", "1.0"); ("homepage", "http://a.example");
                   ("license", "MIT")])]
     = "{" ++ LF
       ++ "    " ++ quoted "alpha" ++ ": {" ++ LF
       ++ "        " ++ quoted "version" ++ ": " ++ quoted "1.0" ++ "," ++ LF
       ++ "        " ++ quoted "homepage" ++ ": " ++ quoted "http://a.example"
       ++ "," ++ LF
       ++ "        " ++ quoted "license" ++ ": " ++ quoted "MIT" ++ LF
       ++ "    }" ++ LF
       ++ "}".
Proof.
  split; [reflexivity|]. split; [|reflexivity].
  intros [H|H]; discriminate H.
Qed.

(** * Further properties of the code *)

(** ** How a run ends *)

Lemma parse_freeze_raises (lines : list string) :
  forallb unpacks lines = false ->
  forall st, exists st', parse_freeze lines st = (Raise ValueError, st').
Proof.
  induction lines as [|line rest IH]; intros H st; [discriminate|].
  cbn [forallb] in H. cbn [parse_freeze]. unfold bind at 1.
  unfold unpacks in H.
  destruct (contains "==" line) eqn:Hc; cbn [negb orb] in H.
  - destruct (split "==" None line) as [|a [|b [|c parts]]]; simpl;
      try (eexists; reflexivity).
    simpl in H. apply (IH H).
  - simpl. apply (IH H).
Qed.

Lemma forallb_unpacks_total (lines : list string) :
  forallb unpacks lines = true ->
  forall st, exists st', parse_freeze lines st = (Ok tt, st').
Proof.
  intros H. apply parse_freeze_total. intros l Hl Hc.
  rewrite forallb_forall in H. specialize (H l Hl).
  unfold unpacks in H. rewrite Hc in H. now apply Nat.eqb_eq in H.
Qed.

(** X1: how [main] ends. Either the project path is a directory,
    [pip freeze] completed and every line of its output unpacks: then the
    scan returns a mapping, the exit status is 0 and what is printed is the
    report of that mapping and a newline. Or one of the three fails: then the
    exit status is 1 and nothing is printed. *)
Theorem X1_main_outcome (sys : system) (isdir : bool) (output_format : string) :
  (isdir = true
   /\ exists stdout st,
        sys ["pip"; "freeze"] = Completed stdout
        /\ forallb unpacks (splitlines (strip stdout)) = true
        /\ scan_licenses sys [] = (Ok tt, st)
        /\ main sys isdir output_format
           = {| exit_status := 0;
                printed := generate_report output_format st ++ LF |})
  \/ ((isdir = false
       \/ failed (sys ["pip"; "freeze"]) = true
       \/ exists stdout,
            sys ["pip"; "freeze"] = Completed stdout
            /\ forallb unpacks (splitlines (strip stdout)) = false)
      /\ main sys isdir output_format
         = {| exit_status := 1; printed := EmptyString |}).
Proof.
  destruct isdir; [|right; split; [now left | reflexivity]].
  unfold main. cbn [negb]. rewrite scan_licenses_spec.
  unfold _get_dependencies, try_except, bind, _execute_command.
  destruct (sys ["pip"; "freeze"]) as [stdout| |] eqn:Hfreeze.
  - unfold ret.
    destruct (forallb unpacks (splitlines (strip stdout))) eqn:Hu.
    + destruct (forallb_unpacks_total _ Hu []) as [st0 Hst0].
      left. split; [reflexivity|].
      exists stdout, (resolve_all sys st0). rewrite Hst0. now repeat split.
    + destruct (parse_freeze_raises _ Hu []) as [st0 Hst0].
      right. split; [|now rewrite Hst0].
      right. right. now exists stdout.
  - right. split; [right; now left | reflexivity].
  - right. split; [right; now left | reflexivity].
Qed.

(** X2: a scan can raise three exceptions and no other: [SystemExit] with
    code 1 when [pip freeze] exits with a non-zero status, the exception of
    the call itself when [pip freeze] cannot be run, and [ValueError] when a
    line of its output does not unpack. In the first two cases the mapping is
    still empty. What [pip show] does never makes the scan raise. *)
Theorem X2_scan_raises_only_from_enumeration (sys : system) (e : exn)
    (st : deps) :
  scan_licenses sys [] = (Raise e, st) ->
  (e = SystemExit 1 /\ sys ["pip"; "freeze"] = NonZeroExit /\ st = [])
  \/ (e = OSError /\ sys ["pip"; "freeze"] = LaunchFailure /\ st = [])
  \/ (e = ValueError
      /\ exists stdout,
           sys ["pip"; "freeze"] = Completed stdout
           /\ forallb unpacks (splitlines (strip stdout)) = false).
Proof.
  rewrite scan_licenses_spec.
  unfold _get_dependencies, try_except, bind, _execute_command.
  destruct (sys ["pip"; "freeze"]) as [stdout| |] eqn:Hfreeze.
  - unfold ret.
    destruct (forallb unpacks (splitlines (strip stdout))) eqn:Hu.
    + destruct (forallb_unpacks_total _ Hu []) as [st0 ->]. discriminate.
    + destruct (parse_freeze_raises _ Hu []) as [st0 ->].
      intros [= <- <-]. right. right. split; [reflexivity|].
      now exists stdout.
  - intros [= <- <-]. now left.
  - intros [= <- <-]. right. now left.
Qed.

Lemma X2_scan_raises_only_from_enumeration_witness :
  (SystemExit 1 = SystemExit 1
   /\ broken_freeze_sys ["pip"; "freeze"] = NonZeroExit /\ @nil (string * record) = [])
  \/ (SystemExit 1 = OSError
      /\ broken_freeze_sys ["pip"; "freeze"] = LaunchFailure
      /\ @nil (string * record) = [])
  \/ (SystemExit 1 = ValueError
      /\ exists stdout,
           broken_freeze_sys ["pip"; "freeze"] = Completed stdout
           /\ forallb unpacks (splitlines (strip stdout)) = false).
Proof.
  exact (X2_scan_raises_only_from_enumeration broken_freeze_sys
           (SystemExit 1) [] eq_refl).
Defined.

(** X3: when no line of the enumeration output contains the separator (the
    empty output included), no entry is made: the scan returns the empty
    mapping, the JSON report is an empty object and the text report is its
    title line alone, both with exit status 0. *)
Theorem X3_nothing_to_report (sys : system) (stdout : string) :
  sys ["pip"; "freeze"] = Completed stdout ->
  forallb (fun line => negb (contains "==" line)) (splitlines (strip stdout))
  = true ->
  scan_licenses sys [] = (Ok tt, [])
  /\ main sys true "json" = {| exit_status := 0; printed := "{}" ++ LF |}
  /\ main sys true "text"
     = {| exit_status := 0;
          printed := "License Compliance Report:" ++ LF ++ LF |}.
Proof.
  intros Hfreeze Hnone.
  assert (Hparse : forall st,
             parse_freeze (splitlines (strip stdout)) st = (Ok tt, st)).
  { induction (splitlines (strip stdout)) as [|line rest IH]; intros st;
      [reflexivity|].
    cbn [forallb] in Hnone. apply andb_true_iff in Hnone as [Hl Hrest].
    apply negb_true_iff in Hl.
    cbn [parse_freeze]. unfold bind at 1. rewrite Hl. simpl.
    now apply IH. }
  assert (Hscan : scan_licenses sys [] = (Ok tt, [])).
  { rewrite scan_licenses_spec.
    assert (Hdeps : _get_dependencies sys [] = (Ok tt, []))
      by (apply _get_dependencies_Ok; exists stdout; auto).
    now rewrite Hdeps. }
  split; [exact Hscan|].
  unfold main. rewrite Hscan. split; reflexivity.
Qed.

Lemma X3_nothing_to_report_witness :
  scan_licenses unversioned_sys [] = (Ok tt, [])
  /\ main unversioned_sys true "json"
     = {| exit_status := 0; printed := "{}" ++ LF |}
  /\ main unversioned_sys true "text"
     = {| exit_status := 0;
          printed := "License Compliance Report:" ++ LF ++ LF |}.
Proof.
  exact (X3_nothing_to_report unversioned_sys
           ("-e /home/dev/project" ++ LF ++ "# local checkout" ++ LF)
           eq_refl eq_refl).
Defined.

(** ** What resolution keeps and what it records *)

(** X4: resolution keeps what enumeration found: the scan returns the same
    package names in the same order, and every record still has the version
    enumeration gave it, whatever [pip show] printed, next to a license. *)
Theorem X4_scan_keeps_names_order_and_versions (sys : system) (st0 : deps) :
  _get_dependencies sys [] = (Ok tt, st0) ->
  exists st,
    scan_licenses sys [] = (Ok tt, st)
    /\ keys st = keys st0
    /\ forall n info0,
         dict_get n st0 = Some info0 ->
         exists v info,
           info0 = [("version", v)]
           /\ dict_get n st = Some info
           /\ dict_get "version" info = Some v
           /\ dict_get "license" info <> None.
Proof.
  intros Hdeps. exists (resolve_all sys st0).
  assert (Henum : enumerated st0)
    by (eapply _get_dependencies_enumerated; eassumption).
  split; [now rewrite scan_licenses_spec, Hdeps|].
  split; [apply keys_resolve_all|].
  intros n info0 Hget.
  destruct (enumerated_get _ _ _ Henum Hget) as [v ->].
  exists v, (resolved (show_of sys n) [("version", v)]).
  split; [reflexivity|].
  split; [now rewrite dict_get_resolve_all, Hget|].
  split; [|apply resolved_has_license].
  destruct (resolved_shape (show_of sys n) v) as [l [->|[h ->]]]; reflexivity.
Qed.

Lemma X4_scan_keeps_names_order_and_versions_witness :
  exists st,
    scan_licenses sample_sys [] = (Ok tt, st)
    /\ keys st = ["alpha"; "beta"].
Proof.
  destruct (X4_scan_keeps_names_order_and_versions sample_sys
              [("alpha", [("version", "1.0")]); ("beta", [("version", "2.3")])]
              eq_refl)
    as (st & Hscan & Hkeys & _).
  exists st. split; [exact Hscan | exact Hkeys].
Defined.

Lemma scan_record_app (pre rest : list string) :
  Forall (fun l => is_license_line l = false) pre ->
  forall info,
    scan_record (pre ++ rest) info = scan_record rest (snd (scan_record pre info)).
Proof.
  induction 1 as [|l pre Hl _ IH]; intros info; simpl; [reflexivity|].
  rewrite Hl. destruct (is_homepage_line l); apply IH.
Qed.

Lemma scan_record_plain (mid : list string) :
  Forall (fun l => is_license_line l = false /\ is_homepage_line l = false)
    mid ->
  forall info, snd (scan_record mid info) = info.
Proof.
  induction 1 as [|l mid [Hl Hh] _ IH]; intros info; simpl; [reflexivity|].
  rewrite Hl, Hh. apply IH.
Qed.

Lemma Forall_not_license (mid : list string) :
  Forall (fun l => is_license_line l = false /\ is_homepage_line l = false)
    mid ->
  Forall (fun l => is_license_line l = false) mid.
Proof. apply Forall_impl. now intros l [H _]. Qed.

Lemma homepage_line_not_license (line : string) :
  is_homepage_line line = true -> is_license_line line = false.
Proof.
  unfold is_homepage_line, is_license_line, startswith.
  destruct (lower line) as [|c s]; [discriminate|].
  rewrite !prefix_cons. intros H. apply andb_true_iff in H as [Hc _].
  apply Ascii.eqb_eq in Hc. now subst c.
Qed.

(** X5: of the home-page lines that come before the first license line (or
    anywhere, when there is no license line), the last one is the one
    recorded: the homepage of the package is the text after its first colon,
    stripped of surrounding whitespace. *)
Theorem X5_last_homepage_line_wins (sys : system) (package_name : string)
    (st : deps) (info : record) (stdout : string)
    (pre mid tail : list string) (line a b : string) :
  dict_get package_name st = Some info ->
  sys ["pip"; "show"; package_name] = Completed stdout ->
  splitlines (strip stdout) = (pre ++ line :: mid ++ tail)%list ->
  Forall (fun l => is_license_line l = false) pre ->
  is_homepage_line line = true ->
  Forall (fun l => is_license_line l = false /\ is_homepage_line l = false)
    mid ->
  (tail = [] \/ exists l t, tail = l :: t /\ is_license_line l = true) ->
  line = a ++ ":" ++ b ->
  contains ":" a = false ->
  exists st' info',
    _get_license_info sys package_name st = (Ok tt, st')
    /\ dict_get package_name st' = Some info'
    /\ dict_get "homepage" info' = Some (strip b).
Proof.
  intros Hget Hshow Hlines Hpre Hline Hmid Htail Hab Ha.
  exists (dict_set package_name (resolved (show_of sys package_name) info) st),
    (resolved (show_of sys package_name) info).
  split; [apply _get_license_info_spec; exact Hget|].
  split; [apply dict_get_set_same|].
  unfold show_of, resolved. rewrite Hshow, Hlines.
  rewrite dict_get_set_other by discriminate.
  rewrite (scan_record_app pre _ Hpre).
  set (info1 := snd (scan_record pre info)).
  cbn [scan_record]. rewrite (homepage_line_not_license line Hline), Hline.
  rewrite (scan_record_app mid tail (Forall_not_license mid Hmid)).
  rewrite (scan_record_plain mid Hmid).
  assert (Htl : forall i, snd (scan_record tail i) = i).
  { intros i. destruct Htail as [->|(l & t & -> & Hl)]; simpl;
      [reflexivity | now rewrite Hl]. }
  rewrite Htl, dict_get_set_same.
  unfold after_colon. rewrite Hab.
  change (a ++ ":" ++ b) with (a ++ String ":"%char b).
  now rewrite (split_first ":" a b Ha).
Qed.

Lemma X5_last_homepage_line_wins_witness :
  exists st' info',
    _get_license_info
      (sys_of NonZeroExit
         (fun _ => Completed ("Home-page: http://old.example" ++ LF
                              ++ "HOME-PAGE:  http://new.example " ++ LF
                              ++ "Author: someone" ++ LF
                              ++ "License: MIT" ++ LF
                              ++ "Home-page: http://late.example")))
      "x" [("x", [("version", "1")])]
    = (Ok tt, st')
    /\ dict_get "x" st' = Some info'
    /\ dict_get "homepage" info' = Some "http://new.example".
Proof.
  apply (X5_last_homepage_line_wins
           (sys_of NonZeroExit
              (fun _ => Completed ("Home-page: http://old.example" ++ LF
                                   ++ "HOME-PAGE:  http://new.example " ++ LF
                                   ++ "Author: someone" ++ LF
                                   ++ "License: MIT" ++ LF
                                   ++ "Home-page: http://late.example")))
           "x" [("x", [("version", "1")])] [("version", "1")]
           ("Home-page: http://old.example" ++ LF
            ++ "HOME-PAGE:  http://new.example " ++ LF
            ++ "Author: someone" ++ LF
            ++ "License: MIT" ++ LF
            ++ "Home-page: http://late.example")
           ["Home-page: http://old.example"] ["Author: someone"]
           ["License: MIT"; "Home-page: http://late.example"]
           "HOME-PAGE:  http://new.example "
           "HOME-PAGE" "  http://new.example ");
    try reflexivity.
  - vm_compute. repeat constructor.
  - vm_compute. repeat constructor.
  - right. eexists. eexists. split; reflexivity.
Defined.

(** ** Whitespace *)

Lemma lstrip_all_space (w : string) : all_space w = true -> lstrip w = EmptyString.
Proof.
  induction w as [|c w IH]; simpl; [reflexivity|].
  intros H. apply andb_true_iff in H as [Hc Hw]. now rewrite Hc, IH.
Qed.


Lemma strip_all_space (w : string) : all_space w = true -> strip w = EmptyString.
Proof. intros H. unfold strip. now rewrite lstrip_all_space. Qed.



Lemma lstrip_shape (s : string) :
  lstrip s = EmptyString
  \/ exists c t, lstrip s = String c t /\ isspace c = false.
Proof.
  induction s as [|c s IH]; simpl; [now left|].
  destruct (isspace c) eqn:Hc; [exact IH|]. right. now exists c, s.
Qed.



Lemma rstrip_idempotent (s : string) : rstrip (rstrip s) = rstrip s.
Proof.
  induction s as [|c s IH]; simpl; [reflexivity|].
  destruct (rstrip s) as [|d r] eqn:E.
  - destruct (isspace c) eqn:Hc; simpl; [reflexivity | now rewrite Hc].
  - change (rstrip (String c (String d r)))
      with (match rstrip (String d r) with
            | EmptyString =>
                if isspace c then EmptyString else String c EmptyString
            | r' => String c r'
            end).
    now rewrite IH.
Qed.

Lemma rstrip_keeps_head (c : ascii) (t : string) :
  isspace c = false -> exists t', rstrip (String c t) = String c t'.
Proof.
  intros Hc. simpl. destruct (rstrip t) as [|d r].
  - rewrite Hc. now exists EmptyString.
  - now exists (String d r).
Qed.

Lemma strip_idempotent (s : string) : strip (strip s) = strip s.
Proof.
  unfold strip. destruct (lstrip_shape s) as [->|(c & t & -> & Hc)].
  - reflexivity.
  - destruct (rstrip_keeps_head c t Hc) as [t' Ht'].
    assert (Hl : lstrip (rstrip (String c t)) = rstrip (String c t))
      by (rewrite Ht'; simpl; now rewrite Hc).
    rewrite Hl. apply rstrip_idempotent.
Qed.



(** X7: a license line with nothing but whitespace after its colon records
    the empty string as the license, not [UNKNOWN]: the default is for an
    output without a license line only. *)
Theorem X7_empty_license_value_is_kept (sys : system) (package_name : string)
    (st : deps) (info : record) (stdout : string)
    (pre post : list string) (line a b : string) :
  dict_get package_name st = Some info ->
  sys ["pip"; "show"; package_name] = Completed stdout ->
  splitlines (strip stdout) = (pre ++ line :: post)%list ->
  Forall (fun l => is_license_line l = false) pre ->
  is_license_line line = true ->
  line = a ++ ":" ++ b ->
  contains ":" a = false ->
  all_space b = true ->
  exists st' info',
    _get_license_info sys package_name st = (Ok tt, st')
    /\ dict_get package_name st' = Some info'
    /\ dict_get "license" info' = Some EmptyString.
Proof.
  intros Hget Hshow Hlines Hpre Hline Hab Ha Hb.
  exists (dict_set package_name (resolved (show_of sys package_name) info) st),
    (resolved (show_of sys package_name) info).
  split; [apply _get_license_info_spec; exact Hget|].
  split; [apply dict_get_set_same|].
  unfold show_of, resolved. rewrite Hshow, Hlines.
  rewrite dict_get_set_same, (scan_record_first_license pre post line Hpre Hline).
  unfold after_colon. rewrite Hab.
  change (a ++ ":" ++ b) with (a ++ String ":"%char b).
  rewrite (split_first ":" a b Ha). cbn [nth].
  now rewrite (strip_all_space b Hb).
Qed.

Lemma X7_empty_license_value_is_kept_witness :
  exists st' info',
    _get_license_info
      (sys_of NonZeroExit
         (fun _ => Completed ("Name: x" ++ LF ++ "License: " ++ LF
                              ++ "Location: /usr/lib")))
      "x" [("x", [("version", "1")])]
    = (Ok tt, st')
    /\ dict_get "x" st' = Some info'
    /\ dict_get "license" info' = Some EmptyString.
Proof.
  apply (X7_empty_license_value_is_kept
           (sys_of NonZeroExit
              (fun _ => Completed ("Name: x" ++ LF ++ "License: " ++ LF
                                   ++ "Location: /usr/lib")))
           "x" [("x", [("version", "1")])] [("version", "1")]
           ("Name: x" ++ LF ++ "License: " ++ LF ++ "Location: /usr/lib")
           ["Name: x"] ["Location: /usr/lib"] "License: " "License" " ");
    try reflexivity.
  vm_compute. repeat constructor.
Defined.

Lemma scan_record_license_trimmed (lines : list string) :
  forall info,
    strip (fst (scan_record lines info)) = fst (scan_record lines info).
Proof.
  induction lines as [|line rest IH]; intros info; simpl; [reflexivity|].
  destruct (is_license_line line); [apply strip_idempotent|].
  destruct (is_homepage_line line); apply IH.
Qed.

Lemma scan_record_homepage_trimmed (lines : list string) :
  forall info,
    (forall h, dict_get "homepage" info = Some h -> strip h = h) ->
    forall h,
      dict_get "homepage" (snd (scan_record lines info)) = Some h ->
      strip h = h.
Proof.
  induction lines as [|line rest IH]; intros info Hinfo; simpl;
    [exact Hinfo|].
  destruct (is_license_line line); [exact Hinfo|].
  destruct (is_homepage_line line); [|now apply IH].
  apply IH. intros h. rewrite dict_get_set_same. intros [= <-].
  apply strip_idempotent.
Qed.

(** X8: in the mapping of a completed scan no license and no homepage has
    whitespace at either end: stripping the recorded value gives it back. *)
Theorem X8_recorded_values_are_stripped (sys : system) (st : deps)
    (package_name : string) (info : record) :
  scan_licenses sys [] = (Ok tt, st) ->
  dict_get package_name st = Some info ->
  (forall l, dict_get "license" info = Some l -> strip l = l)
  /\ (forall h, dict_get "homepage" info = Some h -> strip h = h).
Proof.
  intros Hscan Hget.
  destruct (scan_Ok_resolved sys st Hscan) as (st0 & _ & Henum & ->).
  rewrite dict_get_resolve_all in Hget.
  destruct (dict_get package_name st0) as [info0|] eqn:H0; [|discriminate].
  injection Hget as <-.
  destruct (enumerated_get _ _ _ Henum H0) as [v ->].
  unfold resolved.
  destruct (show_of sys package_name) as [stdout| |].
  - split.
    + intros l. rewrite dict_get_set_same. intros [= <-].
      apply scan_record_license_trimmed.
    + intros h. rewrite dict_get_set_other by discriminate.
      apply scan_record_homepage_trimmed. intros h'. discriminate.
  - split; intros x [= <-]; reflexivity.
  - split; intros x [= <-]; reflexivity.
Qed.

Lemma X8_recorded_values_are_stripped_witness :
  (forall l, dict_get "license"
               [("version", "1.0"); ("homepage", "http://a.example");
                ("license", "MIT")] = Some l -> strip l = l)
  /\ (forall h, dict_get "homepage"
                  [("version", "1.0"); ("homepage", "http://a.example");
                   ("license", "MIT")] = Some h -> strip h = h).
Proof.
  exact (X8_recorded_values_are_stripped homepage_first_sys
           [("alpha", [("version", "1.0"); ("homepage", "http://a.example");
                       ("license", "MIT")])]
           "alpha"
           [("version", "1.0"); ("homepage", "http://a.example");
            ("license", "MIT")]
           eq_refl eq_refl).
Defined.

(** ** A package that is not in the mapping *)

Lemma scan_show_absent (package_name : string) (lines : list string)
    (st : deps) :
  dict_get package_name st = None ->
  (exists license_info, scan_show package_name lines st = (Ok license_info, st))
  \/ scan_show package_name lines st = (Raise (KeyError package_name), st).
Proof.
  intros Hget. induction lines as [|line rest IH]; simpl.
  - left. now exists "UNKNOWN".
  - fold (is_license_line line). fold (is_homepage_line line).
    destruct (is_license_line line) eqn:Hl.
    + destruct (license_line_shape line Hl) as (a & b & Hline & Ha & _).
      left. exists (strip b). unfold bind.
      now rewrite Hline, (index1_after_colon a b st Ha).
    + destruct (is_homepage_line line) eqn:Hh; [|exact IH].
      destruct (homepage_line_shape line Hh) as (a & b & Hline & Ha & _).
      right. unfold bind at 1. rewrite Hline, (index1_after_colon a b st Ha).
      unfold bind, set_field. now rewrite Hget.
Qed.

(** X9: asked for a package that the mapping does not hold,
    [_get_license_info] raises [KeyError] for that name and leaves the
    mapping as it was, whatever [pip show] did: the handlers that record
    [UNKNOWN] need the entry too. *)
Theorem X9_unknown_package_raises_KeyError (sys : system)
    (package_name : string) (st : deps) :
  dict_get package_name st = None ->
  _get_license_info sys package_name st = (Raise (KeyError package_name), st).
Proof.
  intros Hget.
  unfold _get_license_info, try_except, bind, _execute_command.
  destruct (sys ["pip"; "show"; package_name]) as [stdout| |]; simpl.
  - unfold ret.
    destruct (scan_show_absent package_name (splitlines (strip stdout)) st Hget)
      as [[license_info ->] | ->];
      unfold set_field; rewrite ?Hget; cbn; now rewrite ?Hget.
  - unfold set_field. now rewrite Hget.
  - unfold set_field. now rewrite Hget.
Qed.

Lemma X9_unknown_package_raises_KeyError_witness :
  _get_license_info sample_sys "gamma"
    [("alpha", [("version", "1.0")]); ("beta", [("version", "2.3")])]
  = (Raise (KeyError "gamma"),
     [("alpha", [("version", "1.0")]); ("beta", [("version", "2.3")])]).
Proof.
  exact (X9_unknown_package_raises_KeyError sample_sys "gamma"
           [("alpha", [("version", "1.0")]); ("beta", [("version", "2.3")])]
           eq_refl).
Defined.

(** ** What an accepted line is *)

Lemma prefix_split (p : string) :
  forall s, String.prefix p s = true -> exists t, s = p ++ t.
Proof.
  induction p as [|x p IH]; intros s H.
  - now exists s.
  - destruct s as [|c s]; [discriminate|].
    rewrite prefix_cons in H. apply andb_true_iff in H as [Hc H].
    apply Ascii.eqb_eq in Hc. subst c.
    destruct (IH s H) as [t ->]. now exists t.
Qed.

Lemma prefix_app (p a t : string) :
  String.prefix p a = true -> String.prefix p (a ++ t) = true.
Proof.
  revert a. induction p as [|x p IH]; intros a H.
  - apply prefix_empty.
  - destruct a as [|c a]; [discriminate|].
    cbn [append]. rewrite prefix_cons in *.
    apply andb_true_iff in H as [Hc H]. now rewrite Hc, (IH a H).
Qed.

Lemma split_go_nonempty (sep : string) (s : string) :
  forall skip maxsplit, split_go sep skip maxsplit s <> [].
Proof.
  induction s as [|c s IH]; intros skip maxsplit; simpl; [discriminate|].
  destruct skip; [|apply IH].
  destruct (_ && _); [discriminate|].
  destruct (split_go sep 0 maxsplit s) eqn:E; [now apply IH in E|].
  discriminate.
Qed.

Lemma join_cons_head (sep : string) (c : ascii) (l : list string) :
  l <> [] -> join sep (cons_head c l) = String c (join sep l).
Proof.
  destruct l as [|h [|h' t]]; [congruence | reflexivity | reflexivity].
Qed.

Lemma join_cons (sep p : string) (l : list string) :
  l <> [] -> join sep (p :: l) = p ++ sep ++ join sep l.
Proof. destruct l; [congruence | reflexivity]. Qed.

(** Joining the parts of a split with the separator gives the string back;
    with [skip] characters of a matched separator still to pass, it gives
    what follows them. *)
Lemma join_split_go (x : ascii) (sep' : string) :
  forall s skip skipped rest,
    s = skipped ++ rest ->
    String.length skipped = skip ->
    join (String x sep') (split_go (String x sep') skip None s) = rest.
Proof.
  induction s as [|c s IH]; intros skip skipped rest Hs Hlen.
  - destruct skipped; [|discriminate]. simpl in Hs. now subst.
  - destruct skip as [|k].
    + destruct skipped; [|discriminate]. simpl in Hs. subst rest.
      cbn [split_go andb option_map].
      destruct (String.prefix (String x sep') (String c s)) eqn:Hp.
      * rewrite join_cons by apply split_go_nonempty.
        rewrite prefix_cons in Hp. apply andb_true_iff in Hp as [Hc Hp].
        apply Ascii.eqb_eq in Hc. subst c.
        destruct (prefix_split sep' s Hp) as [t Ht].
        change (String.length (String x sep') - 1)
          with (String.length sep' - 0).
        rewrite Nat.sub_0_r.
        rewrite (IH _ sep' t Ht eq_refl). now rewrite Ht.
      * rewrite join_cons_head by apply split_go_nonempty.
        now rewrite (IH 0 EmptyString s eq_refl eq_refl).
    + destruct skipped as [|y skipped]; [discriminate|].
      injection Hs as -> Hs. injection Hlen as Hlen.
      cbn [split_go]. exact (IH k skipped rest Hs Hlen).
Qed.

Lemma join_split (sep s : string) :
  sep <> EmptyString -> join sep (split sep None s) = s.
Proof.
  destruct sep as [|x sep']; [congruence|]. intros _.
  exact (join_split_go x sep' s 0 EmptyString s eq_refl eq_refl).
Qed.

(** The first part of a split holds no separator. *)
Lemma split_head_clean (x : ascii) (sep' : string) :
  forall s p parts,
    split_go (String x sep') 0 None s = p :: parts ->
    contains (String x sep') p = false.
Proof.
  induction s as [|c s IH]; intros p parts H.
  - injection H as <- _. reflexivity.
  - cbn [split_go andb option_map] in H.
    destruct (String.prefix (String x sep') (String c s)) eqn:Hp.
    + injection H as <- _. reflexivity.
    + destruct (split_go (String x sep') 0 None s) as [|p' parts'] eqn:E;
        [now apply split_go_nonempty in E|].
      injection H as <- <-.
      change (contains (String x sep') (String c p'))
        with (String.prefix (String x sep') (String c p')
              || contains (String x sep') p').
      rewrite (IH p' parts' eq_refl), orb_false_r.
      destruct (String.prefix (String x sep') (String c p')) eqn:Hq;
        [|reflexivity].
      pose proof (join_split_go x sep' s 0 EmptyString s eq_refl eq_refl)
        as Hjoin.
      rewrite E in Hjoin.
      assert (Hs : exists t, s = p' ++ t).
      { destruct parts' as [|q parts'].
        - exists EmptyString. simpl in Hjoin. now rewrite append_empty_r.
        - eexists. symmetry. exact Hjoin. }
      destruct Hs as [t ->].
      rewrite <- Hp. symmetry.
      exact (prefix_app (String x sep') (String c p') t Hq).
Qed.

(** X10: a line of [pip freeze] that makes an entry is exactly the name, the
    separator and the version, and the name holds no separator: nothing of
    the line is dropped or trimmed on the way into the mapping. *)
Theorem X10_entry_is_the_line_cut_at_the_separator (line : string)
    (st st' : deps) :
  contains "==" line = true ->
  parse_freeze [line] st = (Ok tt, st') ->
  exists n v,
    line = n ++ "==" ++ v
    /\ contains "==" n = false
    /\ st' = dict_set n [("version", v)] st.
Proof.
  intros Hc H. cbn [parse_freeze] in H. unfold bind in H. rewrite Hc in H.
  destruct (split "==" None line) as [|n [|v [|c parts]]] eqn:Hs;
    simpl in H; try discriminate H.
  injection H as <-. exists n, v. repeat split.
  - rewrite <- (join_split "==" line) by discriminate. now rewrite Hs.
  - exact (split_head_clean "=" "=" line n [v] Hs).
Qed.

Lemma X10_entry_is_the_line_cut_at_the_separator_witness :
  exists n v,
    " requests===2.0 " = n ++ "==" ++ v
    /\ contains "==" n = false
    /\ dict_set " requests" [("version", "=2.0 ")] []
       = dict_set n [("version", v)] [].
Proof.
  exact (X10_entry_is_the_line_cut_at_the_separator " requests===2.0 " []
           (dict_set " requests" [("version", "=2.0 ")] [])
           eq_refl eq_refl).
Defined.

(** ** Enumeration without repeated names *)

Lemma dict_set_absent {V : Type} (k : string) (v : V) (d : dict V) :
  ~ In k (keys d) -> dict_set k v d = (d ++ [(k, v)])%list.
Proof.
  induction d as [|[k' v'] d IH]; simpl; intros H; [reflexivity|].
  destruct (String.eqb k' k) eqn:E.
  - apply String.eqb_eq in E. tauto.
  - rewrite IH; tauto.
Qed.

Lemma parse_freeze_entries (lines : list string) :
  forallb unpacks lines = true ->
  forall st,
    parse_freeze lines st
    = (Ok tt,
       fold_left (fun d nv => dict_set (fst nv) [("version", snd nv)] d)
         (freeze_entries lines) st).
Proof.
  induction lines as [|line rest IH]; intros H st; [reflexivity|].
  cbn [forallb] in H. apply andb_true_iff in H as [Hl Hrest].
  unfold unpacks in Hl.
  cbn [parse_freeze freeze_entries flat_map]. unfold bind at 1.
  destruct (contains "==" line) eqn:Hc; cbn [negb orb] in Hl.
  - destruct (split "==" None line) as [|a [|b [|c parts]]];
      try discriminate Hl.
    simpl. now rewrite (IH Hrest).
  - simpl. now rewrite (IH Hrest).
Qed.

Lemma fold_set_fresh (es : list (string * string)) :
  forall d : deps,
    NoDup (keys d ++ map fst es) ->
    fold_left (fun d nv => dict_set (fst nv) [("version", snd nv)] d) es d
    = (d ++ map (fun nv => (fst nv, [("version", snd nv)])) es)%list.
Proof.
  induction es as [|[n v] es IH]; intros d Hnd; simpl.
  - now rewrite app_nil_r.
  - assert (Hfresh : ~ In n (keys d)).
    { apply NoDup_remove_2 in Hnd. intros Hin. apply Hnd.
      apply in_or_app. now left. }
    rewrite (dict_set_absent _ _ _ Hfresh), IH.
    + now rewrite <- app_assoc.
    + rewrite keys_app. simpl. rewrite <- app_assoc. exact Hnd.
Qed.

(** X11: when every line of the enumeration output unpacks and no name
    comes twice, the mapping is exactly the lines that contain the
    separator, in the order of the output: one entry per such line, its name
    before the separator and its version after it. *)
Theorem X11_distinct_names_give_the_lines_in_order (sys : system)
    (stdout : string) :
  sys ["pip"; "freeze"] = Completed stdout ->
  forallb unpacks (splitlines (strip stdout)) = true ->
  NoDup (map fst (freeze_entries (splitlines (strip stdout)))) ->
  _get_dependencies sys []
  = (Ok tt,
     map (fun nv => (fst nv, [("version", snd nv)]))
       (freeze_entries (splitlines (strip stdout)))).
Proof.
  intros Hfreeze Hu Hnd.
  apply _get_dependencies_Ok. exists stdout. split; [exact Hfreeze|].
  rewrite (parse_freeze_entries _ Hu).
  now rewrite (fold_set_fresh _ [] Hnd).
Qed.

Lemma X11_distinct_names_give_the_lines_in_order_witness :
  _get_dependencies
    (sys_of (Completed ("zeta==0.1" ++ LF ++ "-e ./local" ++ LF
                        ++ "alpha==1.0" ++ LF ++ "mid===3"))
       (fun _ => NonZeroExit)) []
  = (Ok tt, [("zeta", [("version", "0.1")]); ("alpha", [("version", "1.0")]);
             ("mid", [("version", "=3")])]).
Proof.
  apply (X11_distinct_names_give_the_lines_in_order
           (sys_of (Completed ("zeta==0.1" ++ LF ++ "-e ./local" ++ LF
                               ++ "alpha==1.0" ++ LF ++ "mid===3"))
              (fun _ => NonZeroExit))
           ("zeta==0.1" ++ LF ++ "-e ./local" ++ LF
            ++ "alpha==1.0" ++ LF ++ "mid===3")
           eq_refl eq_refl).
  vm_compute. repeat constructor; simpl; intuition discriminate.
Defined.

(** ** The characters of the JSON report *)

Lemma plain_ascii_app (a b : string) :
  plain_ascii (a ++ b) = plain_ascii a && plain_ascii b.
Proof.
  induction a as [|c a IH]; simpl; [reflexivity|].
  now rewrite IH, andb_assoc.
Qed.

Lemma escape_char_plain (c : ascii) : plain_ascii (escape_char c) = true.
Proof. destruct c as [[] [] [] [] [] [] [] []]; reflexivity. Qed.

Lemma encode_plain (s : string) :
  plain_ascii (encode_basestring_ascii s) = true.
Proof.
  unfold encode_basestring_ascii. rewrite !plain_ascii_app.
  assert (H : plain_ascii (escape s) = true).
  { induction s as [|c s IH]; simpl; [reflexivity|].
    now rewrite plain_ascii_app, escape_char_plain, IH. }
  now rewrite H.
Qed.

Lemma spaces_plain (n : nat) : plain_ascii (spaces n) = true.
Proof. induction n as [|n IH]; simpl; [reflexivity | exact IH]. Qed.

Lemma join_plain (sep : string) (parts : list string) :
  plain_ascii sep = true ->
  Forall (fun p => plain_ascii p = true) parts ->
  plain_ascii (join sep parts) = true.
Proof.
  intros Hsep. induction 1 as [|p parts Hp Hparts IH]; [reflexivity|].
  destruct parts as [|q parts]; [exact Hp|].
  change (join sep (p :: q :: parts)) with (p ++ sep ++ join sep (q :: parts)).
  now rewrite !plain_ascii_app, Hp, Hsep, IH.
Qed.

Lemma iterencode_object_plain (indent level : nat)
    (items : list (string * json)) :
  Forall (fun kv => plain_ascii (iterencode indent (S level) (snd kv)) = true)
    items ->
  plain_ascii (iterencode indent level (JObject items)) = true.
Proof.
  intros H. destruct items as [|kv items]; [reflexivity|].
  rewrite iterencode_object by discriminate.
  rewrite !plain_ascii_app, !spaces_plain.
  rewrite join_plain; [reflexivity | |].
  - now rewrite !plain_ascii_app, spaces_plain.
  - apply Forall_map. revert H. apply Forall_impl. intros [k v] Hv.
    cbn [fst snd] in *. now rewrite !plain_ascii_app, encode_plain, Hv.
Qed.

(** X12: the JSON report is plain ASCII whatever the package manager
    printed: each of its characters is a printable ASCII character or the
    line feed that ends a line, since control characters, quotes, backslashes
    and characters above 126 inside names and values are written as escapes. *)
Theorem X12_json_report_is_plain_ascii (st : deps) :
  plain_ascii (generate_report "json" st) = true.
Proof.
  change (generate_report "json" st) with (iterencode 4 0 (json_of_deps st)).
  unfold json_of_deps. apply iterencode_object_plain.
  apply Forall_map, Forall_forall. intros [n info] _. cbn [snd].
  unfold json_of_record. apply iterencode_object_plain.
  apply Forall_map, Forall_forall. intros [k v] _. cbn [snd iterencode].
  apply encode_plain.
Qed.

(** ** The JSON report can be read in one way only *)

Lemma read_step (c : ascii) (u : string) :
  read_string (escape_char c ++ u) = read_more c (read_string u).
Proof. destruct c as [[] [] [] [] [] [] [] []]; reflexivity. Qed.

Lemma read_escape (s t : string) :
  read_string (escape s ++ DQ ++ t) = Some (s, t).
Proof.
  induction s as [|c s IH]; [reflexivity|].
  cbn [escape]. now rewrite append_assoc, read_step, IH.
Qed.

Lemma append_cancel (a t1 t2 : string) : a ++ t1 = a ++ t2 -> t1 = t2.
Proof.
  induction a as [|c a IH]; simpl; [trivial|]. intros [= H]. now apply IH.
Qed.

Lemma encode_prefix_free (s1 s2 t1 t2 : string) :
  encode_basestring_ascii s1 ++ t1 = encode_basestring_ascii s2 ++ t2 ->
  s1 = s2 /\ t1 = t2.
Proof.
  unfold encode_basestring_ascii. rewrite !append_assoc. intros H.
  apply append_cancel in H.
  assert (E : read_string (escape s1 ++ DQ ++ t1)
              = read_string (escape s2 ++ DQ ++ t2)) by now rewrite H.
  rewrite !read_escape in E. now injection E.
Qed.

Section PrefixFree.

Context {A : Type} (f : A -> string).
Hypothesis f_prefix_free :
  forall a1 a2 t1 t2, f a1 ++ t1 = f a2 ++ t2 -> a1 = a2 /\ t1 = t2.

Lemma join_prefix_free (sep' : string) :
  forall l1 l2 t1 t2,
    l1 <> [] -> l2 <> [] ->
    join (String "," sep') (map f l1) ++ String "010" t1
    = join (String "," sep') (map f l2) ++ String "010" t2 ->
    l1 = l2 /\ t1 = t2.
Proof.
  induction l1 as [|a1 r1 IH]; intros l2 t1 t2 H1 H2 H; [congruence|].
  destruct l2 as [|a2 r2]; [congruence|]. cbn [map] in H.
  destruct r1 as [|b1 r1], r2 as [|b2 r2]; cbn [map] in H.
  - cbn [join] in H. apply f_prefix_free in H as [-> [= ->]]. now split.
  - rewrite (join_cons _ (f a2) (f b2 :: map f r2)) in H by discriminate.
    cbn [join] in H. rewrite !append_assoc in H.
    apply f_prefix_free in H as [_ H]. cbn [append] in H. discriminate H.
  - rewrite (join_cons _ (f a1) (f b1 :: map f r1)) in H by discriminate.
    cbn [join] in H. rewrite !append_assoc in H.
    apply f_prefix_free in H as [_ H]. cbn [append] in H. discriminate H.
  - rewrite (join_cons _ (f a1) (f b1 :: map f r1)) in H by discriminate.
    rewrite (join_cons _ (f a2) (f b2 :: map f r2)) in H by discriminate.
    rewrite !append_assoc in H.
    apply f_prefix_free in H as [-> H].
    apply (append_cancel (String "," sep')) in H.
    destruct (IH (b2 :: r2) t1 t2) as [E ->]; try discriminate.
    + exact H.
    + split; [now rewrite E | reflexivity].
Qed.

Lemma object_prefix_free (inner outer : string) (l1 l2 : list A)
    (t1 t2 : string) :
  object_text inner outer (map f l1) ++ t1
  = object_text inner outer (map f l2) ++ t2 ->
  l1 = l2 /\ t1 = t2.
Proof.
  destruct l1 as [|a1 r1], l2 as [|a2 r2]; cbn [map object_text].
  - intros H. split; [reflexivity|]. exact (append_cancel "{}" _ _ H).
  - intros H. discriminate H.
  - intros H. discriminate H.
  - rewrite !append_assoc. intros H.
    apply (append_cancel "{") in H. apply (append_cancel (LF ++ inner)) in H.
    change (f a1 :: map f r1) with (map f (a1 :: r1)) in H.
    change (f a2 :: map f r2) with (map f (a2 :: r2)) in H.
    apply join_prefix_free in H as [E H]; try discriminate.
    split; [exact E|].
    apply (append_cancel outer) in H. exact (append_cancel "}" _ _ H).
Qed.

End PrefixFree.

Lemma iterencode_object_text (indent level : nat)
    (items : list (string * json)) :
  iterencode indent level (JObject items)
  = object_text (spaces (indent * S level)) (spaces (indent * level))
      (map (fun kv => encode_basestring_ascii (fst kv) ++ ": "
                      ++ iterencode indent (S level) (snd kv)) items).
Proof. destruct items; reflexivity. Qed.

Lemma field_prefix_free (kv1 kv2 : string * string) (t1 t2 : string) :
  (encode_basestring_ascii (fst kv1) ++ ": "
   ++ encode_basestring_ascii (snd kv1)) ++ t1
  = (encode_basestring_ascii (fst kv2) ++ ": "
     ++ encode_basestring_ascii (snd kv2)) ++ t2 ->
  kv1 = kv2 /\ t1 = t2.
Proof.
  destruct kv1 as [k1 v1], kv2 as [k2 v2]. cbn [fst snd].
  rewrite !append_assoc. intros H.
  apply encode_prefix_free in H as [-> H].
  apply (append_cancel ": ") in H.
  apply encode_prefix_free in H as [-> ->]. now split.
Qed.

Lemma record_text (indent level : nat) (info : record) :
  iterencode indent level (json_of_record info)
  = object_text (spaces (indent * S level)) (spaces (indent * level))
      (map (fun kv => encode_basestring_ascii (fst kv) ++ ": "
                      ++ encode_basestring_ascii (snd kv)) info).
Proof.
  unfold json_of_record. rewrite iterencode_object_text, map_map.
  reflexivity.
Qed.

Lemma item_prefix_free (ni1 ni2 : string * record) (t1 t2 : string) :
  (encode_basestring_ascii (fst ni1) ++ ": "
   ++ iterencode 4 1 (json_of_record (snd ni1))) ++ t1
  = (encode_basestring_ascii (fst ni2) ++ ": "
     ++ iterencode 4 1 (json_of_record (snd ni2))) ++ t2 ->
  ni1 = ni2 /\ t1 = t2.
Proof.
  destruct ni1 as [n1 r1], ni2 as [n2 r2]. cbn [fst snd].
  rewrite !append_assoc. intros H.
  apply encode_prefix_free in H as [-> H].
  apply (append_cancel ": ") in H. rewrite !record_text in H.
  apply (object_prefix_free _ field_prefix_free) in H as [-> ->].
  now split.
Qed.

(** X13: the JSON report determines the mapping: two mappings with the same
    JSON report are the same mapping, with the same packages and fields in
    the same order and the same values, whatever characters these hold. *)
Theorem X13_json_report_determines_the_mapping (st1 st2 : deps) :
  generate_report "json" st1 = generate_report "json" st2 ->
  st1 = st2.
Proof.
  change (generate_report "json" st1) with (iterencode 4 0 (json_of_deps st1)).
  change (generate_report "json" st2) with (iterencode 4 0 (json_of_deps st2)).
  unfold json_of_deps. rewrite !iterencode_object_text, !map_map.
  cbn [fst snd]. intros H.
  assert (H' : forall o1 o2 : string,
             o1 = o2 -> o1 ++ EmptyString = o2 ++ EmptyString)
    by (intros o1 o2 E; now rewrite E).
  apply H' in H.
  now apply (object_prefix_free _ item_prefix_free) in H as [E _].
Qed.

Lemma X13_json_report_determines_the_mapping_witness :
  [("alpha", [("version", "1.0"); ("license", "MIT")]);
   ("beta", [("version", "2.3"); ("license", "UNKNOWN")])]
  = [("alpha", [("version", "1.0"); ("license", "MIT")]);
     ("beta", [("version", "2.3"); ("license", "UNKNOWN")])].
Proof.
  exact (X13_json_report_determines_the_mapping
           [("alpha", [("version", "1.0"); ("license", "MIT")]);
            ("beta", [("version", "2.3"); ("license", "UNKNOWN")])]
           [("alpha", [("version", "1.0"); ("license", "MIT")]);
            ("beta", [("version", "2.3"); ("license", "UNKNOWN")])]
           eq_refl).
Defined.

(** ** Scanning again *)

Lemma dict_ext {V : Type} (d1 : dict V) :
  forall d2,
    keys d1 = keys d2 ->
    NoDup (keys d1) ->
    (forall k, dict_get k d1 = dict_get k d2) ->
    d1 = d2.
Proof.
  induction d1 as [|[k1 v1] d1 IH]; intros [|[k2 v2] d2] Hk Hnd Hget;
    try discriminate Hk; [reflexivity|].
  simpl in Hk. injection Hk as -> Hk.
  inversion Hnd as [|? ? Hfresh Hnd']; subst.
  pose proof (Hget k2) as H2. simpl in H2. rewrite String.eqb_refl in H2.
  injection H2 as ->. f_equal. apply IH; trivial.
  intros k. specialize (Hget k). simpl in Hget.
  destruct (String.eqb k2 k) eqn:E; [|exact Hget].
  apply String.eqb_eq in E. subst k.
  rewrite (proj2 (dict_get_None k2 d1) Hfresh).
  symmetry. apply dict_get_None. now rewrite <- Hk.
Qed.

Lemma keys_set_incl {V : Type} (k k0 : string) (v : V) (d : dict V) :
  In k0 (keys (dict_set k v d)) <-> k0 = k \/ In k0 (keys d).
Proof.
  destruct (in_dec string_dec k (keys d)) as [Hin|Hin].
  - rewrite keys_set_present by assumption. split; [tauto|].
    intros [->|H]; assumption.
  - rewrite keys_set_absent by assumption. rewrite in_app_iff. simpl.
    split; [intros [H|[H|[]]]; auto | intros [H|H]; auto].
Qed.

Lemma fold_set_keys (es : list (string * string)) :
  forall d k,
    In k (keys (fold_left set_version es d)) <-> In k (keys d) \/ In k (map fst es).
Proof.
  induction es as [|[n v] es IH]; intros d k; simpl; [tauto|].
  rewrite IH. unfold set_version. cbn [fst snd]. rewrite keys_set_incl.
  split; [intros [[->|H]|H] | intros [H|[<-|H]]]; auto.
Qed.

Lemma fold_set_keys_present (es : list (string * string)) :
  forall d,
    (forall n, In n (map fst es) -> In n (keys d)) ->
    keys (fold_left set_version es d) = keys d.
Proof.
  induction es as [|[n v] es IH]; intros d H; simpl; [reflexivity|].
  assert (Hn : In n (keys d)) by (apply H; now left).
  rewrite IH; unfold set_version; cbn [fst snd].
  - now apply keys_set_present.
  - intros m Hm. apply keys_set_incl. right. apply H. now right.
Qed.

Lemma fold_set_get_other (es : list (string * string)) :
  forall d k, ~ In k (map fst es) ->
              dict_get k (fold_left set_version es d) = dict_get k d.
Proof.
  induction es as [|[n v] es IH]; intros d k H; simpl; [reflexivity|].
  simpl in H. rewrite IH by tauto. unfold set_version. cbn [fst snd].
  apply dict_get_set_other. intros ->. tauto.
Qed.

Lemma fold_set_get_named (es : list (string * string)) :
  forall d1 d2 k,
    In k (map fst es) ->
    dict_get k (fold_left set_version es d1) = dict_get k (fold_left set_version es d2).
Proof.
  induction es as [|[n v] es IH]; intros d1 d2 k H; simpl; [destruct H|].
  destruct (in_dec string_dec k (map fst es)) as [Hin|Hin].
  - now apply IH.
  - simpl in H. destruct H as [<-|H]; [|contradiction].
    rewrite !fold_set_get_other by assumption.
    unfold set_version. cbn [fst snd]. now rewrite !dict_get_set_same.
Qed.

Lemma fold_set_NoDup (es : list (string * string)) :
  forall d, NoDup (keys d) -> NoDup (keys (fold_left set_version es d)).
Proof.
  induction es as [|[n v] es IH]; intros d Hd; simpl; [exact Hd|].
  apply IH. now apply keys_set_NoDup.
Qed.

Lemma fold_set_again (es : list (string * string)) (st : deps) :
  keys st = keys (fold_left set_version es []) ->
  fold_left set_version es st = fold_left set_version es [].
Proof.
  intros Hk.
  assert (Hnd : NoDup (keys (fold_left set_version es []))).
  { apply fold_set_NoDup. constructor. }
  assert (Hsame : keys (fold_left set_version es st) = keys st).
  { apply fold_set_keys_present. intros n Hn. rewrite Hk.
    apply fold_set_keys. now right. }
  apply dict_ext.
  - now rewrite Hsame.
  - now rewrite Hsame, Hk.
  - intros k. destruct (in_dec string_dec k (map fst es)) as [Hin|Hin].
    + now apply fold_set_get_named.
    + rewrite !fold_set_get_other by assumption. simpl.
      apply dict_get_None. rewrite Hk, fold_set_keys. simpl. tauto.
Qed.

(** X14: scanning again changes nothing. When a scan on a new checker has
    returned a mapping, a second scan on the same checker, with the commands
    answering as before, returns normally with exactly that mapping: every
    record is made anew from its version and resolved to what it was, in the
    same place. *)
Theorem X14_second_scan_gives_the_same_mapping (sys : system) (st : deps) :
  scan_licenses sys [] = (Ok tt, st) ->
  scan_licenses sys st = (Ok tt, st).
Proof.
  intros Hscan.
  destruct (scan_Ok_resolved sys st Hscan) as (st0 & Hdeps & [Hnd _] & ->).
  apply _get_dependencies_Ok in Hdeps as (stdout & Hfreeze & Hparse).
  assert (Hu : forallb unpacks (splitlines (strip stdout)) = true).
  { destruct (forallb unpacks (splitlines (strip stdout))) eqn:E;
      [reflexivity|].
    destruct (parse_freeze_raises _ E []) as [st' H'].
    rewrite H' in Hparse. discriminate. }
  rewrite (parse_freeze_entries _ Hu) in Hparse. injection Hparse as Hst0.
  change (fold_left set_version
            (freeze_entries (splitlines (strip stdout))) [] = st0) in Hst0.
  assert (Hagain : _get_dependencies sys (resolve_all sys st0) = (Ok tt, st0)).
  { apply _get_dependencies_Ok. exists stdout. split; [exact Hfreeze|].
    rewrite (parse_freeze_entries _ Hu). f_equal.
    change (fold_left set_version
              (freeze_entries (splitlines (strip stdout)))
              (resolve_all sys st0) = st0).
    rewrite <- Hst0 at 2.
    apply fold_set_again. now rewrite keys_resolve_all, Hst0. }
  unfold scan_licenses, bind. rewrite Hagain.
  exact (for_each_package_spec sys st0 [] Hnd).
Qed.

Lemma X14_second_scan_gives_the_same_mapping_witness :
  scan_licenses homepage_first_sys
    [("alpha", [("version", "1.0"); ("homepage", "http://a.example");
                ("license", "MIT")])]
  = (Ok tt,
     [("alpha", [("version", "1.0"); ("homepage", "http://a.example");
                 ("license", "MIT")])]).
Proof.
  exact (X14_second_scan_gives_the_same_mapping homepage_first_sys
           [("alpha", [("version", "1.0"); ("homepage", "http://a.example");
                       ("license", "MIT")])]
           eq_refl).
Defined.
